(** * JT345: position sizing and the backtest engine

    A shallow embedding of

    - [config/core_rules.py]: the immutable risk constants,
      [validate_core_rules], [calculate_position_size] and
      [calculate_stop_loss];
    - [core/backtest_engine.py]: [Trade], [BacktestEngine.load_data],
      [BacktestEngine.execute_strategy] with its helpers, and
      [BacktestEngine._calculate_results].

    Numbers.  The program computes with binary floating point.  The engine
    is embedded twice.  [Backtest] reads every arithmetic expression of the
    source, operator by operator, over exact rationals ([Q]); it carries
    the properties of the control flow, which do not depend on how a
    number is rounded: equalities that hold because both sides run the
    same operations are Leibniz equalities.  Division there is [Qdiv]; in
    the metrics, where the source guards its divisions, division is
    [checked_div] and a metric that would divide by zero is [None].
    [Doubles] reads the same expressions over binary64, the program's own
    arithmetic, with its rounding, infinities and [nan]; it carries the
    properties of the realized capital, of the profit factor, of the
    trade counts and of the stop and target levels, which do depend on
    them. *)

From Stdlib Require Import QArith Qabs ZArith List String Bool Lia Lra.
From Stdlib Require Import Sorting.Mergesort Sorting.Sorted Sorting.Permutation Orders.
From Stdlib Require Import Lqa.
From Stdlib Require Import Floats.
Import ListNotations.

Open Scope Q_scope.

(** ** Comparisons and Python's [min]/[max] *)

(** [x < y] as a boolean. *)
Definition Qltb (x y : Q) : bool := negb (Qle_bool y x).

(** Python's two-argument [min]: the first argument is kept unless the
    second is strictly smaller. *)
Definition py_min (a b : Q) : Q := if Qltb b a then b else a.

(** Python's two-argument [max]: the first argument is kept unless the
    second is strictly greater. *)
Definition py_max (a b : Q) : Q := if Qltb a b then b else a.

(** ** config/core_rules.py *)

Module CoreRules.

(** 1% of capital per trade, the hard limit. *)
Definition MAX_RISK_PERCENT : Q := 1 # 100.

(** Minimum position size in USD. *)
Definition MIN_POSITION_SIZE : Q := 10.

(** [calculate_position_size(capital, risk_percent=None)]. *)
Definition calculate_position_size (capital : Q) (risk_percent : option Q) : Q :=
  let risk_percent :=
    match risk_percent with
    | None => MAX_RISK_PERCENT
    | Some r => r
    end in
  (* Enforce maximum risk *)
  let risk_percent := py_min risk_percent MAX_RISK_PERCENT in
  let position_size := capital * risk_percent in
  (* Enforce minimum position size *)
  py_max position_size MIN_POSITION_SIZE.

(** Minimum absolute sentiment score to trade. *)
Definition SENTIMENT_MIN_THRESHOLD : Q := 3.

(** Trade long when sentiment >= this; short when sentiment <= this. *)
Definition TRADE_LONG_SENTIMENT : Q := 3.

Definition TRADE_SHORT_SENTIMENT : Q := - (3).

(** Stop loss must be <= 50% of take profit. *)
Definition STOP_LOSS_MAX_RATIO : Q := 1 # 2.

(** Minimum 0.5% take profit. *)
Definition MIN_TAKE_PROFIT_PERCENT : Q := 5 # 1000.

(** The [trade_params] dict: a key that is absent is [None]. *)
Record TradeParams := mkParams {
  sentiment : option Q;
  risk_percent : option Q;
  take_profit_percent : option Q;
  stop_loss_percent : option Q;
  direction : option string
}.

(** The message returned beside the flag, with the values it prints. *)
Inductive Message :=
| SentimentBelowThreshold (sentiment : Q)
| RiskExceedsMaximum (risk_percent : Q)
| StopLossExceedsRatio (stop_loss take_profit : Q)
| TakeProfitBelowMinimum (take_profit : Q)
| CannotTradeLong (sentiment : Q)
| CannotTradeShort (sentiment : Q)
| AllCoreRulesSatisfied.

(** [dict.get(key, default)]. *)
Definition get {A} (entry : option A) (default : A) : A :=
  match entry with
  | Some v => v
  | None => default
  end.

(** [validate_core_rules(trade_params)]. *)
Definition validate_core_rules (trade_params : TradeParams) : bool * Message :=
  (* Sentiment check *)
  let sentiment := get (sentiment trade_params) 0 in
  if Qltb (Qabs sentiment) SENTIMENT_MIN_THRESHOLD
  then (false, SentimentBelowThreshold sentiment)
  else
    (* Risk check *)
    let risk_percent := get (risk_percent trade_params) 0 in
    if Qltb MAX_RISK_PERCENT risk_percent
    then (false, RiskExceedsMaximum risk_percent)
    else
      (* Stop loss check *)
      let take_profit := get (take_profit_percent trade_params) 0 in
      let stop_loss := get (stop_loss_percent trade_params) 0 in
      if Qltb (take_profit * STOP_LOSS_MAX_RATIO) stop_loss
      then (false, StopLossExceedsRatio stop_loss take_profit)
      else if Qltb take_profit MIN_TAKE_PROFIT_PERCENT
      then (false, TakeProfitBelowMinimum take_profit)
      else
        (* Direction vs sentiment check *)
        let direction := get (direction trade_params) EmptyString in
        if String.eqb direction "LONG" && Qltb sentiment TRADE_LONG_SENTIMENT
        then (false, CannotTradeLong sentiment)
        else if String.eqb direction "SHORT"
                && Qltb TRADE_SHORT_SENTIMENT sentiment
        then (false, CannotTradeShort sentiment)
        else (true, AllCoreRulesSatisfied).

(** [calculate_stop_loss(entry_price, take_profit_price, direction)]: any
    direction other than ['LONG'] takes the short branch. *)
Definition calculate_stop_loss (entry_price take_profit_price : Q)
    (direction : string) : Q :=
  if String.eqb direction "LONG"
  then
    let tp_distance := take_profit_price - entry_price in
    let max_sl_distance := tp_distance * STOP_LOSS_MAX_RATIO in
    entry_price - max_sl_distance
  else
    let tp_distance := entry_price - take_profit_price in
    let max_sl_distance := tp_distance * STOP_LOSS_MAX_RATIO in
    entry_price + max_sl_distance.

End CoreRules.

(** ** core/backtest_engine.py *)

Module Backtest.

(** *** The price frame *)

(** One row of the frame: the six columns the engine reads.  Timestamps
    are instants on a discrete time line, counted in seconds. *)
Record Candle := mkCandle {
  timestamp : Z;
  open : Q;
  high : Q;
  low : Q;
  close : Q;
  volume : Q
}.

(** A [pd.DataFrame] as [load_data] sees it: the column labels and the
    rows.  A cell of a row is read only after its label has been found
    among [columns]. *)
Record DataFrame := mkFrame {
  columns : list string;
  rows : list Candle
}.

(** What the module's logger receives. *)
Inductive LogRecord :=
| MissingColumns (missing : list string)
| Loaded (candles : nat)
| NoDataLoaded
| Backtesting (name : string)
| Opened (direction : string) (price size : Q)
| Closed (price profit : Q).

(** *** class Trade *)

Module Trade.

Record t := mk {
  entry_time : Z;
  entry_price : Q;
  position_size : Q;
  direction : string;
  exit_time : option Z;
  exit_price : option Q;
  profit : Q;
  profit_percent : Q;
  duration : option Q;
  closed : bool
}.

(** [Trade.__init__]. *)
Definition init (entry_time : Z) (entry_price position_size : Q)
    (direction : string) : t :=
  {| entry_time := entry_time;
     entry_price := entry_price;
     position_size := position_size;
     direction := direction;
     exit_time := None;
     exit_price := None;
     profit := 0;
     profit_percent := 0;
     duration := None;
     closed := false |}.

(** [Trade.close]: any direction other than ['long'] takes the short
    branch.  Both times are timestamps once the frame is loaded, so the
    duration in hours is always computed. *)
Definition close (self : t) (exit_time : Z) (exit_price : Q) : t :=
  let long := String.eqb (direction self) "long" in
  {| entry_time := entry_time self;
     entry_price := entry_price self;
     position_size := position_size self;
     direction := direction self;
     exit_time := Some exit_time;
     exit_price := Some exit_price;
     profit :=
       if long
       then (exit_price - entry_price self) * position_size self
       else (entry_price self - exit_price) * position_size self;
     profit_percent :=
       if long
       then ((exit_price - entry_price self) / entry_price self) * 100
       else ((entry_price self - exit_price) / entry_price self) * 100;
     duration := Some (inject_Z (exit_time - entry_time self) / 3600);
     closed := true |}.

End Trade.

(** *** Strategy rules *)

(** The keys a declarative condition dict is inspected for; any other
    key is ignored by the engine. *)
Record ConditionDict := mkConditions {
  rsi_below : option Q;
  price_above_ma : option Z;
  rsi_above : option Q
}.

Definition no_conditions : ConditionDict :=
  {| rsi_below := None; price_above_ma := None; rsi_above := None |}.

(** ['entry_conditions'] and ['exit_conditions'] hold a callable or a
    dict. *)
Inductive Conditions :=
| Callable (f : Candle -> list Candle -> bool)
| Declarative (conditions : ConditionDict).

(** The [strategy_rules] dict: a key that is absent is [None]. *)
Record StrategyRules := mkRules {
  name : option string;
  entry_conditions : option Conditions;
  exit_conditions : option Conditions;
  position_size_percent : option Q;
  stop_loss_percent : option Q;
  take_profit_percent : option Q;
  direction : option string
}.

(** [dict.get(key, default)]. *)
Definition get {A} (entry : option A) (default : A) : A :=
  match entry with
  | Some v => v
  | None => default
  end.

(** *** The engine object *)

(** [data] is [None] until [load_data] has succeeded once: [__init__]
    does not create the attribute.  [log] collects what the logger was
    sent, oldest first. *)
Record BacktestEngine := mkEngine {
  initial_capital : Q;
  capital : Q;
  trades : list Trade.t;
  equity_curve : list Q;
  current_position : option Trade.t;
  data : option (list Candle);
  log : list LogRecord
}.

(** [BacktestEngine.__init__]. *)
Definition init (initial_capital : Q) : BacktestEngine :=
  {| initial_capital := initial_capital;
     capital := initial_capital;
     trades := [];
     equity_curve := [];
     current_position := None;
     data := None;
     log := [] |}.

Definition logger (r : LogRecord) (self : BacktestEngine) : BacktestEngine :=
  {| initial_capital := initial_capital self;
     capital := capital self;
     trades := trades self;
     equity_curve := equity_curve self;
     current_position := current_position self;
     data := data self;
     log := log self ++ [r] |}.

(** *** load_data *)

Definition required_columns : list string :=
  ["timestamp"; "open"; "high"; "low"; "close"; "volume"]%string.

Definition has_column (df : DataFrame) (col : string) : bool :=
  existsb (String.eqb col) (columns df).

(** Rows are ordered by their timestamp. *)
Module TimestampOrder <: TotalLeBool.
Definition t := Candle.
Definition leb (a b : t) : bool := (timestamp a <=? timestamp b)%Z.
Lemma leb_total : forall a b, leb a b = true \/ leb b a = true.
Proof.
  intros a b. unfold leb.
  destruct (Z.leb_spec (timestamp a) (timestamp b)) as [Hab | Hba].
  - now left.
  - right. apply Z.leb_le. lia.
Qed.
End TimestampOrder.

Module TimestampSort := Sort TimestampOrder.

(** [data.sort_values('timestamp').reset_index(drop=True)].  The order
    among rows of equal timestamp depends on the sorting routine, in
    pandas and here (a merge sort); the properties below hold for any
    order among such rows. *)
Definition sort_values (l : list Candle) : list Candle :=
  TimestampSort.sort l.

(** [load_data]: the returned flag and the engine afterwards. *)
Definition load_data (self : BacktestEngine) (df : DataFrame)
    : bool * BacktestEngine :=
  let missing :=
    filter (fun col => negb (has_column df col)) required_columns in
  match missing with
  | _ :: _ => (false, logger (MissingColumns missing) self)
  | [] =>
      let sorted := sort_values (rows df) in
      let self :=
        {| initial_capital := initial_capital self;
           capital := capital self;
           trades := trades self;
           equity_curve := equity_curve self;
           current_position := current_position self;
           data := Some sorted;
           log := log self |} in
      (true, logger (Loaded (List.length sorted)) self)
  end.

(** *** Indicators *)

(** A float that may be [nan]. *)
Inductive Float :=
| NaN
| Fin (q : Q).

(** [x > y] and [x < y] where the left, respectively right, operand may be
    [nan]: a comparison with [nan] is false. *)
Definition Float_gt (x : Float) (y : Q) : bool :=
  match x with
  | NaN => false
  | Fin q => Qltb y q
  end.

Definition lt_Float (x : Q) (y : Float) : bool :=
  match y with
  | NaN => false
  | Fin q => Qltb x q
  end.

(** Python's [sum]: from 0, left to right. *)
Definition py_sum (l : list Q) : Q := fold_left Qplus l 0.

Definition Qlen {A} (l : list A) : Q := inject_Z (Z.of_nat (List.length l)).

(** [Series.mean()]: [nan] on an empty series. *)
Definition Series_mean (s : list Q) : Float :=
  match s with
  | [] => NaN
  | _ :: _ => Fin (py_sum s / Qlen s)
  end.

(** [Series.tail(n)]: the last [n] rows, none for [n = 0], and all but the
    first [-n] rows for a negative [n]. *)
Definition Series_tail {A} (n : Z) (s : list A) : list A :=
  if (n =? 0)%Z then []
  else if (0 <? n)%Z then skipn (List.length s - Z.to_nat n) s
  else skipn (Z.to_nat (- n)) s.

Fixpoint diff_from (prev : Q) (s : list Q) : list Float :=
  match s with
  | [] => []
  | x :: s' => Fin (x - prev) :: diff_from x s'
  end.

(** [Series.diff()]: the first difference is [nan]. *)
Definition Series_diff (s : list Q) : list Float :=
  match s with
  | [] => []
  | x :: s' => NaN :: diff_from x s'
  end.

(** [s.where(cond, other)] for a condition computed entry by entry from
    [s] itself; the condition is false on [nan]. *)
Definition Series_where (cond : Q -> bool) (other : Q) (s : list Float) : list Q :=
  map (fun d =>
         match d with
         | Fin v => if cond v then v else other
         | NaN => other
         end) s.

(** The last entry of [s.rolling(window).mean()]: [nan] while the window
    is not full. *)
Definition rolling_mean_last (window : nat) (s : list Q) : Float :=
  if (List.length s <? window)%nat then NaN
  else Series_mean (skipn (List.length s - window) s).

(** [100 - (100 / (1 + gain / loss))] in float arithmetic: with
    [loss = 0], [gain / loss] is [nan] for [gain = 0] and infinite
    otherwise, and then [100 / (1 + gain / loss)] is 0. *)
Definition rsi_value (gain loss : Float) : Float :=
  match gain, loss with
  | Fin g, Fin l =>
      if Qeq_bool l 0
      then if Qeq_bool g 0 then NaN else Fin 100
      else Fin (100 - (100 / (1 + g / l)))
  | _, _ => NaN
  end.

(** [_calculate_rsi]: [None] when there are too few prices. *)
Definition _calculate_rsi (prices : list Q) (period : nat) : option Float :=
  if (List.length prices <? period + 1)%nat then None
  else
    let deltas := Series_diff prices in
    let gain := rolling_mean_last period (Series_where (fun d => Qltb 0 d) 0 deltas) in
    let loss :=
      rolling_mean_last period
        (map Qopp (Series_where (fun d => Qltb d 0) 0 deltas)) in
    Some (rsi_value gain loss).

(** *** Entry and exit conditions *)

Definition conditions_dict (entry : option Conditions) : ConditionDict :=
  match entry with
  | Some (Declarative conditions) => conditions
  | _ => no_conditions
  end.

Definition _check_entry_conditions (current : Candle) (history : list Candle)
    (rules : StrategyRules) : bool :=
  match entry_conditions rules with
  | Some (Callable f) => f current history
  | _ =>
      let conditions := conditions_dict (entry_conditions rules) in
      let rsi_fails :=
        match rsi_below conditions with
        | Some threshold =>
            match _calculate_rsi (map close history) 14 with
            | None => true
            | Some rsi => Float_gt rsi threshold
            end
        | None => false
        end in
      let ma_fails :=
        match price_above_ma conditions with
        | Some n =>
            lt_Float (close current)
              (Series_mean (Series_tail n (map close history)))
        | None => false
        end in
      if rsi_fails then false
      else if ma_fails then false
      else true
  end.

Definition _check_exit_conditions (current : Candle) (history : list Candle)
    (rules : StrategyRules) : bool :=
  match exit_conditions rules with
  | Some (Callable f) => f current history
  | _ =>
      let conditions := conditions_dict (exit_conditions rules) in
      match rsi_above conditions with
      | Some threshold =>
          match _calculate_rsi (map close history) 14 with
          | Some rsi => Float_gt rsi threshold
          | None => false
          end
      | None => false
      end
  end.

(** *** Opening and closing *)

Definition _open_position (self : BacktestEngine) (timestamp : Z) (price : Q)
    (position_size_percent : Q) (direction : string) : BacktestEngine :=
  let position_size := (capital self * position_size_percent / 100) / price in
  logger (Opened direction price position_size)
    {| initial_capital := initial_capital self;
       capital := capital self;
       trades := trades self;
       equity_curve := equity_curve self;
       current_position :=
         Some (Trade.init timestamp price position_size direction);
       data := data self;
       log := log self |}.

Definition _close_position (self : BacktestEngine) (timestamp : Z) (price : Q)
    : BacktestEngine :=
  match current_position self with
  | Some position =>
      let position := Trade.close position timestamp price in
      logger (Closed price (Trade.profit position))
        {| initial_capital := initial_capital self;
           capital := capital self + Trade.profit position;
           trades := trades self ++ [position];
           equity_curve := equity_curve self;
           current_position := None;
           data := data self;
           log := log self |}
  | None => self
  end.

(** *** Results *)

(** A division whose divisor may be zero: [None] is the [inf] or [nan]
    that floating point would produce. *)
Definition checked_div (a b : Q) : option Q :=
  if Qeq_bool b 0 then None else Some (a / b).

(** [np.mean] of a list. *)
Definition np_mean (l : list Q) : option Q := checked_div (py_sum l) (Qlen l).

Definition np_maximum (a b : Q) : Q := if Qltb a b then b else a.

Fixpoint maximum_accumulate_from (m : Q) (l : list Q) : list Q :=
  match l with
  | [] => []
  | x :: l' =>
      let m' := np_maximum m x in
      m' :: maximum_accumulate_from m' l'
  end.

(** [np.maximum.accumulate]. *)
Definition maximum_accumulate (l : list Q) : list Q :=
  match l with
  | [] => []
  | x :: l' => x :: maximum_accumulate_from x l'
  end.

(** [(equity_array - running_max) / running_max * 100], entry by entry. *)
Fixpoint drawdown (equity running_max : list Q) : list (option Q) :=
  match equity, running_max with
  | e :: equity', m :: running_max' =>
      option_map (fun x => x * 100) (checked_div (e - m) m)
        :: drawdown equity' running_max'
  | _, _ => []
  end.

(** [abs(drawdown.min())]. *)
Fixpoint array_min (l : list (option Q)) : option Q :=
  match l with
  | [] => None
  | [x] => x
  | x :: l' =>
      match x, array_min l' with
      | Some a, Some b => Some (py_min a b)
      | _, _ => None
      end
  end.

Module Results.

(** The results dict; ['sharpe_ratio'] takes a square root and is left
    out. *)
Record t := mk {
  total_trades : nat;
  winning_trades : nat;
  losing_trades : nat;
  win_rate : option Q;
  total_profit : Q;
  total_return_percent : option Q;
  initial_capital : Q;
  final_capital : Q;
  avg_win : option Q;
  avg_loss : option Q;
  profit_factor : option Q;
  max_drawdown_percent : option Q;
  avg_trade_duration_hours : option Q;
  equity_curve : list Q;
  trades : list Trade.t;
  profitable : bool
}.

End Results.

(** What [execute_strategy] hands back: an error dict, possibly with a
    ['total_trades'] entry, or the results; or the [AttributeError] raised
    when no frame was ever loaded. *)
Inductive Outcome :=
| AttributeError
| ErrorDict (total_trades : option nat) (error : string)
| Report (results : Results.t).

Definition durations (trades : list Trade.t) : list Q :=
  flat_map (fun t =>
              match Trade.duration t with
              | Some d => [d]
              | None => []
              end) trades.

(** ['profit_factor']: [abs(avg_win / avg_loss) if avg_loss != 0 else 0]. *)
Definition profit_factor_of (avg_win avg_loss : option Q) : option Q :=
  match avg_loss with
  | None => None
  | Some l =>
      if negb (Qeq_bool l 0)
      then
        match avg_win with
        | None => None
        | Some w => option_map Qabs (checked_div w l)
        end
      else Some 0
  end.

Definition _calculate_results (self : BacktestEngine) : Outcome :=
  match trades self with
  | [] => ErrorDict (Some 0%nat) "No trades executed"
  | _ :: _ =>
      let total_trades := List.length (trades self) in
      let winning_trades :=
        filter (fun t => Qltb 0 (Trade.profit t)) (trades self) in
      let losing_trades :=
        filter (fun t => Qle_bool (Trade.profit t) 0) (trades self) in
      let win_rate :=
        if (0 <? total_trades)%nat
        then option_map (fun x => x * 100)
               (checked_div (Qlen winning_trades) (Qlen (trades self)))
        else Some 0 in
      let total_profit := py_sum (map Trade.profit (trades self)) in
      let total_return :=
        option_map (fun x => x * 100)
          (checked_div (capital self - initial_capital self)
             (initial_capital self)) in
      let avg_win :=
        match winning_trades with
        | _ :: _ => np_mean (map Trade.profit winning_trades)
        | [] => Some 0
        end in
      let avg_loss :=
        match losing_trades with
        | _ :: _ => np_mean (map Trade.profit losing_trades)
        | [] => Some 0
        end in
      let running_max := maximum_accumulate (equity_curve self) in
      let max_drawdown :=
        option_map Qabs (array_min (drawdown (equity_curve self) running_max)) in
      let avg_duration :=
        match durations (trades self) with
        | _ :: _ => np_mean (durations (trades self))
        | [] => Some 0
        end in
      Report
        {| Results.total_trades := total_trades;
           Results.winning_trades := List.length winning_trades;
           Results.losing_trades := List.length losing_trades;
           Results.win_rate := win_rate;
           Results.total_profit := total_profit;
           Results.total_return_percent := total_return;
           Results.initial_capital := initial_capital self;
           Results.final_capital := capital self;
           Results.avg_win := avg_win;
           Results.avg_loss := avg_loss;
           Results.profit_factor := profit_factor_of avg_win avg_loss;
           Results.max_drawdown_percent := max_drawdown;
           Results.avg_trade_duration_hours := avg_duration;
           Results.equity_curve := equity_curve self;
           Results.trades := trades self;
           Results.profitable := Qltb 0 total_profit |}
  end.

(** *** execute_strategy *)

(** [self.data.iloc[max(0, i-50):i]]. *)
Definition prev_window (frame : list Candle) (i : nat) : list Candle :=
  firstn (i - (i - 50)) (skipn (i - 50) frame).

(** The tail of the loop body: "Update equity curve". *)
Definition update_equity_curve (self : BacktestEngine) (current_candle : Candle)
    : BacktestEngine :=
  let current_equity := capital self in
  let current_equity :=
    match current_position self with
    | Some position =>
        let unrealized_pnl :=
          (close current_candle - Trade.entry_price position)
          * Trade.position_size position in
        current_equity + unrealized_pnl
    | None => current_equity
    end in
  {| initial_capital := initial_capital self;
     capital := capital self;
     trades := trades self;
     equity_curve := equity_curve self ++ [current_equity];
     current_position := current_position self;
     data := data self;
     log := log self |}.

(** The strategy parameters read before the loop. *)
Record Parameters := mkParameters {
  p_position_size_percent : Q;
  p_stop_loss_percent : Q;
  p_take_profit_percent : Q;
  p_direction : string
}.

Definition parameters (strategy_rules : StrategyRules) : Parameters :=
  {| p_position_size_percent := get (position_size_percent strategy_rules) 10;
     p_stop_loss_percent := get (stop_loss_percent strategy_rules) 2;
     p_take_profit_percent := get (take_profit_percent strategy_rules) 5;
     p_direction := get (direction strategy_rules) "long"%string |}.

(** "Check exit conditions" and, when they do not fire, the tail of the
    loop body. *)
Definition check_exit (strategy_rules : StrategyRules)
    (current_candle : Candle) (prev_candles : list Candle)
    (self : BacktestEngine) : BacktestEngine :=
  if _check_exit_conditions current_candle prev_candles strategy_rules
  then (* continue *)
    _close_position self (timestamp current_candle) (close current_candle)
  else update_equity_curve self current_candle.

(** One pass through the body of [for i in range(1, len(self.data))].
    A branch that ends in [continue] returns without reaching
    [update_equity_curve]. *)
Definition loop_body (strategy_rules : StrategyRules) (p : Parameters)
    (frame : list Candle) (i : nat) (current_candle : Candle)
    (self : BacktestEngine) : BacktestEngine :=
  let prev_candles := prev_window frame i in
  match current_position self with
  | Some position =>
      if String.eqb (p_direction p) "long"
      then
        (* Check stop loss *)
        if Qle_bool (low current_candle)
             (Trade.entry_price position * (1 - p_stop_loss_percent p / 100))
        then (* continue *)
          _close_position self (timestamp current_candle)
            (Trade.entry_price position * (1 - p_stop_loss_percent p / 100))
        (* Check take profit *)
        else if Qle_bool
                  (Trade.entry_price position * (1 + p_take_profit_percent p / 100))
                  (high current_candle)
        then (* continue *)
          _close_position self (timestamp current_candle)
            (Trade.entry_price position * (1 + p_take_profit_percent p / 100))
        else check_exit strategy_rules current_candle prev_candles self
      else check_exit strategy_rules current_candle prev_candles self
  | None =>
      (* Check entry conditions *)
      let self :=
        if _check_entry_conditions current_candle prev_candles strategy_rules
        then _open_position self (timestamp current_candle) (close current_candle)
               (p_position_size_percent p) (p_direction p)
        else self in
      update_equity_curve self current_candle
  end.

(** The loop, from index [i] over the rows [candles = frame[i:]]. *)
Fixpoint simulate (strategy_rules : StrategyRules) (p : Parameters)
    (frame : list Candle) (i : nat) (candles : list Candle)
    (self : BacktestEngine) : BacktestEngine :=
  match candles with
  | [] => self
  | current_candle :: candles' =>
      simulate strategy_rules p frame (S i) candles'
        (loop_body strategy_rules p frame i current_candle self)
  end.

(** "Reset state". *)
Definition reset (self : BacktestEngine) : BacktestEngine :=
  {| initial_capital := initial_capital self;
     capital := initial_capital self;
     trades := [];
     equity_curve := [initial_capital self];
     current_position := None;
     data := data self;
     log := log self |}.

(** "Close any open position at end". *)
Definition close_at_end (frame : list Candle) (first : Candle)
    (self : BacktestEngine) : BacktestEngine :=
  match current_position self with
  | Some _ =>
      let last_candle := last frame first in
      _close_position self (timestamp last_candle) (close last_candle)
  | None => self
  end.

(** The engine after the loop and the forced close, for a frame
    [first :: rest]. *)
Definition run (self : BacktestEngine) (strategy_rules : StrategyRules)
    (first : Candle) (rest : list Candle) : BacktestEngine :=
  let frame := first :: rest in
  let self :=
    logger (Backtesting (get (name strategy_rules) "Unknown"%string)) self in
  let self := reset self in
  let self :=
    simulate strategy_rules (parameters strategy_rules) frame 1 rest self in
  close_at_end frame first self.

(** [execute_strategy]: what is returned, and the engine afterwards. *)
Definition execute_strategy (self : BacktestEngine)
    (strategy_rules : StrategyRules) : Outcome * BacktestEngine :=
  match data self with
  | None => (AttributeError, self)
  | Some [] => (ErrorDict None "No data loaded", logger NoDataLoaded self)
  | Some (first :: rest) =>
      let self := run self strategy_rules first rest in
      (_calculate_results self, self)
  end.

End Backtest.

(** ** core/backtest_engine.py in double precision *)

(** The engine once more, with every number a binary64 value and every
    operator the IEEE operation Python and numpy run: division by zero
    gives an infinity or [nan], and a comparison with [nan] is false.
    The numbers the engine is handed (initial capital, rule percentages,
    candle values) are doubles; the logger, which the numbers do not
    depend on, is left out. *)

Module Doubles.

Local Open Scope float_scope.

(** An integer count as a double; exact below 2^53. *)
Fixpoint float_of_positive (p : positive) : float :=
  match p with
  | xH => 1
  | xO p' => 2 * float_of_positive p'
  | xI p' => 2 * float_of_positive p' + 1
  end.

Definition float_of_Z (z : Z) : float :=
  match z with
  | Z0 => 0
  | Zpos p => float_of_positive p
  | Zneg p => - float_of_positive p
  end.

Definition float_of_nat (n : nat) : float := float_of_Z (Z.of_nat n).

(** Python's [sum]: from 0, left to right. *)
Definition py_sum (l : list float) : float := fold_left PrimFloat.add l 0.

(** The reductions of numpy and pandas the engine calls.  Their order of
    summation is the libraries' own, so they are taken as given:
    [np.mean] of a list, [Series.mean()], and the last entry of
    [Series.rolling(window).mean()]. *)
Record Library := mkLibrary {
  np_mean : list float -> float;
  Series_mean : list float -> float;
  rolling_mean_last : nat -> list float -> float
}.

(** The reductions that add from left to right, as numpy's do on fewer
    than eight entries. *)
Definition sequential : Library :=
  {| np_mean := fun l => py_sum l / float_of_nat (List.length l);
     Series_mean := fun l =>
       match l with
       | [] => nan
       | _ :: _ => py_sum l / float_of_nat (List.length l)
       end;
     rolling_mean_last := fun window l =>
       if (List.length l <? window)%nat then nan
       else
         match skipn (List.length l - window) l with
         | [] => nan
         | w => py_sum w / float_of_nat (List.length w)
         end |}.

Record Candle := mkCandle {
  timestamp : Z;
  open : float;
  high : float;
  low : float;
  close : float;
  volume : float
}.

(** *** class Trade *)

Module Trade.

Record t := mk {
  entry_time : Z;
  entry_price : float;
  position_size : float;
  direction : string;
  exit_time : option Z;
  exit_price : option float;
  profit : float;
  profit_percent : float;
  duration : option float;
  closed : bool
}.

(** [Trade.__init__]. *)
Definition init (entry_time : Z) (entry_price position_size : float)
    (direction : string) : t :=
  {| entry_time := entry_time;
     entry_price := entry_price;
     position_size := position_size;
     direction := direction;
     exit_time := None;
     exit_price := None;
     profit := 0;
     profit_percent := 0;
     duration := None;
     closed := false |}.

(** [Trade.close]. *)
Definition close (self : t) (exit_time : Z) (exit_price : float) : t :=
  let long := String.eqb (direction self) "long" in
  {| entry_time := entry_time self;
     entry_price := entry_price self;
     position_size := position_size self;
     direction := direction self;
     exit_time := Some exit_time;
     exit_price := Some exit_price;
     profit :=
       if long
       then (exit_price - entry_price self) * position_size self
       else (entry_price self - exit_price) * position_size self;
     profit_percent :=
       if long
       then ((exit_price - entry_price self) / entry_price self) * 100
       else ((entry_price self - exit_price) / entry_price self) * 100;
     duration := Some (float_of_Z (exit_time - entry_time self) / 3600);
     closed := true |}.

End Trade.

(** *** Strategy rules *)

Record ConditionDict := mkConditions {
  rsi_below : option float;
  price_above_ma : option Z;
  rsi_above : option float
}.

Definition no_conditions : ConditionDict :=
  {| rsi_below := None; price_above_ma := None; rsi_above := None |}.

Inductive Conditions :=
| Callable (f : Candle -> list Candle -> bool)
| Declarative (conditions : ConditionDict).

Record StrategyRules := mkRules {
  name : option string;
  entry_conditions : option Conditions;
  exit_conditions : option Conditions;
  position_size_percent : option float;
  stop_loss_percent : option float;
  take_profit_percent : option float;
  direction : option string
}.

(** [dict.get(key, default)]. *)
Definition get {A} (entry : option A) (default : A) : A :=
  match entry with
  | Some v => v
  | None => default
  end.

(** *** The engine object *)

Record BacktestEngine := mkEngine {
  initial_capital : float;
  capital : float;
  trades : list Trade.t;
  equity_curve : list float;
  current_position : option Trade.t;
  data : option (list Candle)
}.

(** [BacktestEngine.__init__]. *)
Definition init (initial_capital : float) : BacktestEngine :=
  {| initial_capital := initial_capital;
     capital := initial_capital;
     trades := [];
     equity_curve := [];
     current_position := None;
     data := None |}.

(** *** Indicators *)

(** [Series.tail(n)]. *)
Definition Series_tail {A} (n : Z) (s : list A) : list A :=
  if (n =? 0)%Z then []
  else if (0 <? n)%Z then skipn (List.length s - Z.to_nat n) s
  else skipn (Z.to_nat (- n)) s.

Fixpoint diff_from (prev : float) (s : list float) : list float :=
  match s with
  | [] => []
  | x :: s' => (x - prev) :: diff_from x s'
  end.

(** [Series.diff()]: the first difference is [nan]. *)
Definition Series_diff (s : list float) : list float :=
  match s with
  | [] => []
  | x :: s' => nan :: diff_from x s'
  end.

(** [s.where(cond, other)] for a condition computed entry by entry. *)
Definition Series_where (cond : float -> bool) (other : float)
    (s : list float) : list float :=
  map (fun d => if cond d then d else other) s.

(** [_calculate_rsi]: [None] when there are too few prices. *)
Definition _calculate_rsi (lib : Library) (prices : list float) (period : nat)
    : option float :=
  if (List.length prices <? period + 1)%nat then None
  else
    let deltas := Series_diff prices in
    let gain :=
      rolling_mean_last lib period (Series_where (fun d => 0 <? d) 0 deltas) in
    let loss :=
      rolling_mean_last lib period
        (map PrimFloat.opp (Series_where (fun d => d <? 0) 0 deltas)) in
    let rs := gain / loss in
    let rsi := 100 - (100 / (1 + rs)) in
    Some rsi.

(** *** Entry and exit conditions *)

Definition conditions_dict (entry : option Conditions) : ConditionDict :=
  match entry with
  | Some (Declarative conditions) => conditions
  | _ => no_conditions
  end.

Definition _check_entry_conditions (lib : Library) (current : Candle)
    (history : list Candle) (rules : StrategyRules) : bool :=
  match entry_conditions rules with
  | Some (Callable f) => f current history
  | _ =>
      let conditions := conditions_dict (entry_conditions rules) in
      let rsi_fails :=
        match rsi_below conditions with
        | Some threshold =>
            match _calculate_rsi lib (map close history) 14 with
            | None => true
            | Some rsi => threshold <? rsi
            end
        | None => false
        end in
      let ma_fails :=
        match price_above_ma conditions with
        | Some n =>
            close current
            <? Series_mean lib (Series_tail n (map close history))
        | None => false
        end in
      if rsi_fails then false
      else if ma_fails then false
      else true
  end.

Definition _check_exit_conditions (lib : Library) (current : Candle)
    (history : list Candle) (rules : StrategyRules) : bool :=
  match exit_conditions rules with
  | Some (Callable f) => f current history
  | _ =>
      let conditions := conditions_dict (exit_conditions rules) in
      match rsi_above conditions with
      | Some threshold =>
          match _calculate_rsi lib (map close history) 14 with
          | Some rsi => threshold <? rsi
          | None => false
          end
      | None => false
      end
  end.

(** *** Opening and closing *)

Definition _open_position (self : BacktestEngine) (timestamp : Z)
    (price position_size_percent : float) (direction : string)
    : BacktestEngine :=
  let position_size := (capital self * position_size_percent / 100) / price in
  {| initial_capital := initial_capital self;
     capital := capital self;
     trades := trades self;
     equity_curve := equity_curve self;
     current_position :=
       Some (Trade.init timestamp price position_size direction);
     data := data self |}.

Definition _close_position (self : BacktestEngine) (timestamp : Z)
    (price : float) : BacktestEngine :=
  match current_position self with
  | Some position =>
      let position := Trade.close position timestamp price in
      {| initial_capital := initial_capital self;
         capital := capital self + Trade.profit position;
         trades := trades self ++ [position];
         equity_curve := equity_curve self;
         current_position := None;
         data := data self |}
  | None => self
  end.

(** *** Results *)

(** A division that Python refuses on a zero divisor: [None] is the
    refusal. *)
Definition checked_div (a b : float) : option float :=
  if b =? 0 then None else Some (a / b).

Module Results.

(** The entries of the results dict that come from the trades and the
    capital; ['max_drawdown_percent'], ['sharpe_ratio'] and
    ['avg_trade_duration_hours'] are left out. *)
Record t := mk {
  total_trades : nat;
  winning_trades : nat;
  losing_trades : nat;
  win_rate : float;
  total_profit : float;
  total_return_percent : float;
  initial_capital : float;
  final_capital : float;
  avg_win : float;
  avg_loss : float;
  profit_factor : option float;
  equity_curve : list float;
  trades : list Trade.t;
  profitable : bool
}.

End Results.

Inductive Outcome :=
| AttributeError
| ErrorDict (total_trades : option nat) (error : string)
| Report (results : Results.t).

Definition winning (trades : list Trade.t) : list Trade.t :=
  filter (fun t => 0 <? Trade.profit t) trades.

Definition losing (trades : list Trade.t) : list Trade.t :=
  filter (fun t => Trade.profit t <=? 0) trades.

(** [np.mean([t.profit for t in group]) if group else 0]. *)
Definition average (lib : Library) (group : list Trade.t) : float :=
  match group with
  | _ :: _ => np_mean lib (map Trade.profit group)
  | [] => 0
  end.

(** ['profit_factor']: [abs(avg_win / avg_loss) if avg_loss != 0 else 0]. *)
Definition profit_factor_of (avg_win avg_loss : float) : option float :=
  if negb (avg_loss =? 0)
  then option_map PrimFloat.abs (checked_div avg_win avg_loss)
  else Some 0.

Definition _calculate_results (lib : Library) (self : BacktestEngine) : Outcome :=
  match trades self with
  | [] => ErrorDict (Some 0%nat) "No trades executed"
  | _ :: _ =>
      let total_trades := List.length (trades self) in
      let winning_trades := winning (trades self) in
      let losing_trades := losing (trades self) in
      let win_rate :=
        if (0 <? total_trades)%nat
        then float_of_nat (List.length winning_trades)
             / float_of_nat total_trades * 100
        else 0 in
      let total_profit := py_sum (map Trade.profit (trades self)) in
      let total_return :=
        ((capital self - initial_capital self) / initial_capital self) * 100 in
      let avg_win := average lib winning_trades in
      let avg_loss := average lib losing_trades in
      Report
        {| Results.total_trades := total_trades;
           Results.winning_trades := List.length winning_trades;
           Results.losing_trades := List.length losing_trades;
           Results.win_rate := win_rate;
           Results.total_profit := total_profit;
           Results.total_return_percent := total_return;
           Results.initial_capital := initial_capital self;
           Results.final_capital := capital self;
           Results.avg_win := avg_win;
           Results.avg_loss := avg_loss;
           Results.profit_factor := profit_factor_of avg_win avg_loss;
           Results.equity_curve := equity_curve self;
           Results.trades := trades self;
           Results.profitable := 0 <? total_profit |}
  end.

(** *** execute_strategy *)

(** [self.data.iloc[max(0, i-50):i]]. *)
Definition prev_window (frame : list Candle) (i : nat) : list Candle :=
  firstn (i - (i - 50)) (skipn (i - 50) frame).

(** The tail of the loop body: "Update equity curve". *)
Definition update_equity_curve (self : BacktestEngine) (current_candle : Candle)
    : BacktestEngine :=
  let current_equity := capital self in
  let current_equity :=
    match current_position self with
    | Some position =>
        let unrealized_pnl :=
          (close current_candle - Trade.entry_price position)
          * Trade.position_size position in
        current_equity + unrealized_pnl
    | None => current_equity
    end in
  {| initial_capital := initial_capital self;
     capital := capital self;
     trades := trades self;
     equity_curve := equity_curve self ++ [current_equity];
     current_position := current_position self;
     data := data self |}.

(** The strategy parameters read before the loop. *)
Record Parameters := mkParameters {
  p_position_size_percent : float;
  p_stop_loss_percent : float;
  p_take_profit_percent : float;
  p_direction : string
}.

Definition parameters (strategy_rules : StrategyRules) : Parameters :=
  {| p_position_size_percent := get (position_size_percent strategy_rules) 10;
     p_stop_loss_percent := get (stop_loss_percent strategy_rules) 2;
     p_take_profit_percent := get (take_profit_percent strategy_rules) 5;
     p_direction := get (direction strategy_rules) "long"%string |}.

(** "Check exit conditions" and, when they do not fire, the tail of the
    loop body. *)
Definition check_exit (lib : Library) (strategy_rules : StrategyRules)
    (current_candle : Candle) (prev_candles : list Candle)
    (self : BacktestEngine) : BacktestEngine :=
  if _check_exit_conditions lib current_candle prev_candles strategy_rules
  then (* continue *)
    _close_position self (timestamp current_candle) (close current_candle)
  else update_equity_curve self current_candle.

(** One pass through the body of [for i in range(1, len(self.data))]. *)
Definition loop_body (lib : Library) (strategy_rules : StrategyRules)
    (p : Parameters) (frame : list Candle) (i : nat) (current_candle : Candle)
    (self : BacktestEngine) : BacktestEngine :=
  let prev_candles := prev_window frame i in
  match current_position self with
  | Some position =>
      if String.eqb (p_direction p) "long"
      then
        (* Check stop loss *)
        if low current_candle
           <=? Trade.entry_price position * (1 - p_stop_loss_percent p / 100)
        then (* continue *)
          _close_position self (timestamp current_candle)
            (Trade.entry_price position * (1 - p_stop_loss_percent p / 100))
        (* Check take profit *)
        else if Trade.entry_price position * (1 + p_take_profit_percent p / 100)
                <=? high current_candle
        then (* continue *)
          _close_position self (timestamp current_candle)
            (Trade.entry_price position * (1 + p_take_profit_percent p / 100))
        else check_exit lib strategy_rules current_candle prev_candles self
      else check_exit lib strategy_rules current_candle prev_candles self
  | None =>
      (* Check entry conditions *)
      let self :=
        if _check_entry_conditions lib current_candle prev_candles strategy_rules
        then _open_position self (timestamp current_candle) (close current_candle)
               (p_position_size_percent p) (p_direction p)
        else self in
      update_equity_curve self current_candle
  end.

(** The loop, from index [i] over the rows [candles = frame[i:]]. *)
Fixpoint simulate (lib : Library) (strategy_rules : StrategyRules)
    (p : Parameters) (frame : list Candle) (i : nat) (candles : list Candle)
    (self : BacktestEngine) : BacktestEngine :=
  match candles with
  | [] => self
  | current_candle :: candles' =>
      simulate lib strategy_rules p frame (S i) candles'
        (loop_body lib strategy_rules p frame i current_candle self)
  end.

(** "Reset state". *)
Definition reset (self : BacktestEngine) : BacktestEngine :=
  {| initial_capital := initial_capital self;
     capital := initial_capital self;
     trades := [];
     equity_curve := [initial_capital self];
     current_position := None;
     data := data self |}.

(** "Close any open position at end". *)
Definition close_at_end (frame : list Candle) (first : Candle)
    (self : BacktestEngine) : BacktestEngine :=
  match current_position self with
  | Some _ =>
      let last_candle := last frame first in
      _close_position self (timestamp last_candle) (close last_candle)
  | None => self
  end.

(** The engine after the loop over [rest], before the forced close. *)
Definition after_loop (lib : Library) (self : BacktestEngine)
    (strategy_rules : StrategyRules) (first : Candle) (rest : list Candle)
    : BacktestEngine :=
  simulate lib strategy_rules (parameters strategy_rules) (first :: rest) 1 rest
    (reset self).

(** The engine after the loop and the forced close, for a frame
    [first :: rest]. *)
Definition run (lib : Library) (self : BacktestEngine)
    (strategy_rules : StrategyRules) (first : Candle) (rest : list Candle)
    : BacktestEngine :=
  close_at_end (first :: rest) first
    (after_loop lib self strategy_rules first rest).

(** [execute_strategy]: what is returned, and the engine afterwards. *)
Definition execute_strategy (lib : Library) (self : BacktestEngine)
    (strategy_rules : StrategyRules) : Outcome * BacktestEngine :=
  match data self with
  | None => (AttributeError, self)
  | Some [] => (ErrorDict None "No data loaded", self)
  | Some (first :: rest) =>
      let self := run lib self strategy_rules first rest in
      (_calculate_results lib self, self)
  end.

(** The capital is the initial capital with the profits of the trade
    history added to it one by one, in the order of the history. *)
Definition capital_is_running_sum (self : BacktestEngine) : Prop :=
  capital self
  = fold_left PrimFloat.add (map Trade.profit (trades self))
      (initial_capital self).

(** *** Sample inputs *)

Definition always_true : Conditions := Callable (fun _ _ => true).

(** The empty rules dict. *)
Definition empty_rules : StrategyRules :=
  {| name := None;
     entry_conditions := None;
     exit_conditions := None;
     position_size_percent := None;
     stop_loss_percent := None;
     take_profit_percent := None;
     direction := None |}.

(** SHORT, entry and exit always true. *)
Definition in_and_out_short : StrategyRules :=
  {| name := None;
     entry_conditions := Some always_true;
     exit_conditions := Some always_true;
     position_size_percent := None;
     stop_loss_percent := None;
     take_profit_percent := None;
     direction := Some "short"%string |}.

(** A candle that opens, peaks, bottoms and closes at one price. *)
Definition flat (time : Z) (price : float) : Candle :=
  mkCandle time price price price price 1.

(** A fresh engine with 10000 of capital and the frame in place. *)
Definition engine_with (frame : list Candle) : BacktestEngine :=
  {| initial_capital := 10000;
     capital := 10000;
     trades := [];
     equity_curve := [];
     current_position := None;
     data := Some frame |}.

(** Closes 100, 0, 1, 1, 2. *)
Definition zero_close_frame : list Candle :=
  [flat 0 100; flat 1 0; flat 2 1; flat 3 1; flat 4 2].

(** A rise from 3.0 to the double nearest 3.1, inside the default stop
    and target. *)
Definition small_rise_frame : list Candle :=
  [flat 0 3; flat 1 3; mkCandle 2 3 0x1.9p+1 3 0x1.8cccccccccccdp+1 1].

(** Closes 100, 0, 0: a short trade entered and left at a close of 0,
    whose profit is [nan]. *)
Definition nan_profit_frame : list Candle :=
  [flat 0 100; flat 1 0; flat 2 0].

(** A frame that loses on the first short trade and wins on the second:
    closes 100, 10, 20, 20, 10. *)
Definition swing_frame : list Candle :=
  [flat 0 100; flat 1 10; flat 2 20; flat 3 20; flat 4 10].

(** What a pass of the loop body does to the capital and the history. *)
Definition pass_effect (candle : Candle) (e e' : BacktestEngine) : Prop :=
  (capital e' = capital e /\ trades e' = trades e) \/
  (exists position price,
     current_position e = Some position /\
     let trade := Trade.close position (timestamp candle) price in
     capital e' = capital e + Trade.profit trade /\
     trades e' = trades e ++ [trade]).

End Doubles.

(** * Specification vocabulary *)

Import Backtest.

(** A position is open. *)
Definition is_open (self : BacktestEngine) : bool :=
  match current_position self with
  | Some _ => true
  | None => false
  end.

(** The one-position discipline read off the log: [Opened] is accepted
    only while no position is open, [Closed] only while one is; the result
    is whether a position is open after the last record. *)
Fixpoint single_position (open : bool) (records : list LogRecord) : option bool :=
  match records with
  | [] => Some open
  | Opened _ _ _ :: records' =>
      if open then None else single_position true records'
  | Closed _ _ :: records' =>
      if open then single_position false records' else None
  | _ :: records' => single_position open records'
  end.

Definition is_opened (r : LogRecord) : bool :=
  match r with
  | Opened _ _ _ => true
  | _ => false
  end.

Definition is_closed (r : LogRecord) : bool :=
  match r with
  | Closed _ _ => true
  | _ => false
  end.

(** How many positions a stretch of the log opened, and closed. *)
Definition count_opened (records : list LogRecord) : nat :=
  List.length (filter is_opened records).

Definition count_closed (records : list LogRecord) : nat :=
  List.length (filter is_closed records).

(** Timestamps strictly increasing along a series. *)
Fixpoint strictly_increasing (ts : list Z) : bool :=
  match ts with
  | a :: (b :: _) as ts' => (a <? b)%Z && strictly_increasing ts'
  | _ => true
  end.

(** The realized capital is the initial capital plus the profits of the
    trades closed so far. *)
Definition capital_is_realized (self : BacktestEngine) : Prop :=
  capital self
  == initial_capital self + py_sum (map Trade.profit (trades self)).

(** The rules with every absent key written out as the value
    [execute_strategy] and its helpers fall back to. *)
Definition with_defaults (rules : StrategyRules) : StrategyRules :=
  {| name := Some (get (name rules) "Unknown"%string);
     entry_conditions :=
       Some (get (entry_conditions rules) (Declarative no_conditions));
     exit_conditions :=
       Some (get (exit_conditions rules) (Declarative no_conditions));
     position_size_percent := Some (get (position_size_percent rules) 10);
     stop_loss_percent := Some (get (stop_loss_percent rules) 2);
     take_profit_percent := Some (get (take_profit_percent rules) 5);
     direction := Some (get (direction rules) "long"%string) |}.

(** The engine as the loop finds it. *)
Definition at_start (self : BacktestEngine) (rules : StrategyRules) : BacktestEngine :=
  reset (logger (Backtesting (get (name rules) "Unknown"%string)) self).

(** The engine when the loop over [rest] is over, before the forced close. *)
Definition after_loop (self : BacktestEngine) (rules : StrategyRules)
    (first : Candle) (rest : list Candle) : BacktestEngine :=
  simulate rules (parameters rules) (first :: rest) 1 rest (at_start self rules).

(** The rules with the ['entry_conditions'] entry replaced. *)
Definition with_entry_conditions (entry : option Conditions)
    (rules : StrategyRules) : StrategyRules :=
  {| name := name rules;
     entry_conditions := entry;
     exit_conditions := exit_conditions rules;
     position_size_percent := position_size_percent rules;
     stop_loss_percent := stop_loss_percent rules;
     take_profit_percent := take_profit_percent rules;
     direction := direction rules |}.

(** The trade parameters with the ['direction'] entry replaced. *)
Definition with_direction (direction : option string)
    (params : CoreRules.TradeParams) : CoreRules.TradeParams :=
  {| CoreRules.sentiment := CoreRules.sentiment params;
     CoreRules.risk_percent := CoreRules.risk_percent params;
     CoreRules.take_profit_percent := CoreRules.take_profit_percent params;
     CoreRules.stop_loss_percent := CoreRules.stop_loss_percent params;
     CoreRules.direction := direction |}.

(** The trade parameters with the ['sentiment'] entry replaced. *)
Definition with_sentiment (sentiment : option Q)
    (params : CoreRules.TradeParams) : CoreRules.TradeParams :=
  {| CoreRules.sentiment := sentiment;
     CoreRules.risk_percent := CoreRules.risk_percent params;
     CoreRules.take_profit_percent := CoreRules.take_profit_percent params;
     CoreRules.stop_loss_percent := CoreRules.stop_loss_percent params;
     CoreRules.direction := CoreRules.direction params |}.

(** A proposal that passes every check. *)
Definition sound_params : CoreRules.TradeParams :=
  {| CoreRules.sentiment := Some 4;
     CoreRules.risk_percent := Some (1 # 100);
     CoreRules.take_profit_percent := Some (2 # 100);
     CoreRules.stop_loss_percent := Some (1 # 100);
     CoreRules.direction := Some "LONG"%string |}.

(** What the five checks of [validate_core_rules] ask of a proposal. *)
Definition core_rules_hold (params : CoreRules.TradeParams) : Prop :=
  let sentiment := CoreRules.get (CoreRules.sentiment params) 0 in
  let risk_percent := CoreRules.get (CoreRules.risk_percent params) 0 in
  let take_profit := CoreRules.get (CoreRules.take_profit_percent params) 0 in
  let stop_loss := CoreRules.get (CoreRules.stop_loss_percent params) 0 in
  CoreRules.SENTIMENT_MIN_THRESHOLD <= Qabs sentiment /\
  risk_percent <= CoreRules.MAX_RISK_PERCENT /\
  stop_loss <= take_profit * CoreRules.STOP_LOSS_MAX_RATIO /\
  CoreRules.MIN_TAKE_PROFIT_PERCENT <= take_profit /\
  (CoreRules.direction params = Some "LONG"%string ->
   CoreRules.TRADE_LONG_SENTIMENT <= sentiment) /\
  (CoreRules.direction params = Some "SHORT"%string ->
   sentiment <= CoreRules.TRADE_SHORT_SENTIMENT).

(** Two engines that differ at most in what was logged. *)
Definition same_but_log (a b : BacktestEngine) : Prop :=
  initial_capital a = initial_capital b /\
  capital a = capital b /\
  trades a = trades b /\
  equity_curve a = equity_curve b /\
  current_position a = current_position b /\
  data a = data b.

(** A property of the engine that no pass of the loop disturbs. *)
Definition Preserved (P : BacktestEngine -> Prop) : Prop :=
  (forall self ts price, P self -> P (_close_position self ts price)) /\
  (forall self candle, P self -> P (update_equity_curve self candle)) /\
  (forall self ts price percent direction,
     P self -> P (_open_position self ts price percent direction)).

(** The entry of the first trade: the position opened first, open or
    already in the history, entered at the given time and price. *)
Definition first_entry (time : Z) (price : Q) (self : BacktestEngine) : Prop :=
  match trades self with
  | trade :: _ =>
      Trade.entry_time trade = time /\ Trade.entry_price trade = price
  | [] =>
      exists position,
        current_position self = Some position /\
        Trade.entry_time position = time /\
        Trade.entry_price position = price
  end.

(** A trade entered in the given direction at the close of one of the
    given candles. *)
Definition entered_at (candles : list Candle) (direction : string)
    (trade : Trade.t) : Prop :=
  Trade.direction trade = direction /\
  exists candle,
    In candle candles /\
    Trade.entry_time trade = timestamp candle /\
    Trade.entry_price trade = close candle.

(** A closed trade that left at the time of one of the given candles. *)
Definition exited_at (candles : list Candle) (trade : Trade.t) : Prop :=
  Trade.closed trade = true /\
  Trade.exit_price trade <> None /\
  exists candle,
    In candle candles /\ Trade.exit_time trade = Some (timestamp candle).

(** The history holds closed trades only, and the open position, if any,
    is not closed; all were entered at candles of [rest]. *)
Definition history_wellformed (first : Candle) (rest : list Candle)
    (direction : string) (self : BacktestEngine) : Prop :=
  Forall (fun trade =>
            entered_at rest direction trade /\ exited_at (first :: rest) trade)
         (trades self) /\
  (forall position,
     current_position self = Some position ->
     entered_at rest direction position /\ Trade.closed position = false).

(** The passes from one engine to another logged at most one [Opened] or
    [Closed] each, and every [Closed] added a trade to the history. *)
Definition Activity (steps : nat) (self self' : BacktestEngine) : Prop :=
  exists records,
    log self' = log self ++ records /\
    (count_opened records + count_closed records <= steps)%nat /\
    (count_closed records + List.length (trades self)
     = List.length (trades self'))%nat.

(** A closed trade that left no earlier than it entered, with the
    non-negative duration that goes with it. *)
Definition chronological (trade : Trade.t) : Prop :=
  exists exit_time hours,
    Trade.exit_time trade = Some exit_time /\
    (Trade.entry_time trade <= exit_time)%Z /\
    Trade.duration trade = Some hours /\
    0 <= hours.

(** ** Sample inputs *)

Definition always_true : Conditions := Callable (fun _ _ => true).

Definition never_true : Conditions := Callable (fun _ _ => false).

(** The empty rules dict. *)
Definition empty_rules : StrategyRules :=
  {| name := None;
     entry_conditions := None;
     exit_conditions := None;
     position_size_percent := None;
     stop_loss_percent := None;
     take_profit_percent := None;
     direction := None |}.

(** LONG, stop 1%, target 2%, entry always true. *)
Definition long_rules : StrategyRules :=
  {| name := None;
     entry_conditions := Some always_true;
     exit_conditions := None;
     position_size_percent := None;
     stop_loss_percent := Some 1;
     take_profit_percent := Some 2;
     direction := Some "long"%string |}.

(** SHORT, stop 1%, target 2%, entry always true, exit never. *)
Definition short_rules : StrategyRules :=
  {| name := None;
     entry_conditions := Some always_true;
     exit_conditions := Some never_true;
     position_size_percent := None;
     stop_loss_percent := Some 1;
     take_profit_percent := Some 2;
     direction := Some "short"%string |}.

Definition candle_before : Candle := mkCandle (-1) 100 105 95 100 1.
Definition candle_t0 : Candle := mkCandle 0 100 105 95 100 1.
Definition candle_t1 : Candle := mkCandle 1 100 102 90 92 1.
Definition candle_spike : Candle := mkCandle 1 100 110 100 105 1.
Definition candle_after : Candle := mkCandle 2 105 120 105 120 1.

Definition frame_of (rows : list Candle) : DataFrame :=
  mkFrame required_columns rows.

(** A fresh engine with 10000 of capital and the frame loaded. *)
Definition engine_with (rows : list Candle) : BacktestEngine :=
  snd (load_data (init 10000) (frame_of rows)).

(** * Position sizing *)

Lemma Qltb_lt (x y : Q) : Qltb x y = true <-> x < y.
Proof.
  unfold Qltb. rewrite negb_true_iff. split.
  - intro H. apply Qnot_le_lt. intro Hle.
    apply Qle_bool_iff in Hle. congruence.
  - intro H. destruct (Qle_bool y x) eqn:E; [|reflexivity].
    apply Qle_bool_iff in E. exfalso. exact (Qlt_not_le _ _ H E).
Qed.

Lemma Qltb_ge (x y : Q) : Qltb x y = false <-> y <= x.
Proof.
  unfold Qltb. rewrite negb_false_iff. apply Qle_bool_iff.
Qed.

(** C1, as stated, fails: with 100 of capital and 5% requested, 1% of
    the capital is 1, but the size returned is the 10 USD minimum. *)
Lemma position_size_exceeds_cap_below_minimum :
  0 < 100 /\ CoreRules.MAX_RISK_PERCENT < 5 # 100 /\
  CoreRules.calculate_position_size 100 (Some (5 # 100)) = 10 /\
  ~ CoreRules.calculate_position_size 100 (Some (5 # 100))
    == 100 * CoreRules.MAX_RISK_PERCENT /\
  100 * CoreRules.MAX_RISK_PERCENT
  < CoreRules.calculate_position_size 100 (Some (5 # 100)).
Proof.
  repeat split; vm_compute; congruence.
Qed.

(** C1, amended: for capital > 0 and a requested risk percent above the
    hard cap, the size is the larger of capital x hard cap and the
    minimum position size: capital x hard cap itself once that reaches
    the minimum, the minimum otherwise. *)
Theorem position_size_clamped (capital risk_percent : Q) :
  0 < capital ->
  CoreRules.MAX_RISK_PERCENT < risk_percent ->
  CoreRules.calculate_position_size capital (Some risk_percent)
  = py_max (capital * CoreRules.MAX_RISK_PERCENT) CoreRules.MIN_POSITION_SIZE
  /\ (CoreRules.MIN_POSITION_SIZE <= capital * CoreRules.MAX_RISK_PERCENT ->
      CoreRules.calculate_position_size capital (Some risk_percent)
      = capital * CoreRules.MAX_RISK_PERCENT)
  /\ (capital * CoreRules.MAX_RISK_PERCENT < CoreRules.MIN_POSITION_SIZE ->
      CoreRules.calculate_position_size capital (Some risk_percent)
      = CoreRules.MIN_POSITION_SIZE).
Proof.
  intros _ Hcap.
  assert (Hsize :
    CoreRules.calculate_position_size capital (Some risk_percent)
    = py_max (capital * CoreRules.MAX_RISK_PERCENT) CoreRules.MIN_POSITION_SIZE).
  { unfold CoreRules.calculate_position_size, py_min.
    apply Qltb_lt in Hcap. now rewrite Hcap. }
  rewrite Hsize. unfold py_max. repeat split.
  - intro Hge. apply Qltb_ge in Hge. now rewrite Hge.
  - intro Hlt. apply Qltb_lt in Hlt. now rewrite Hlt.
Qed.

Lemma position_size_clamped_witness :
  CoreRules.calculate_position_size 2000 (Some (5 # 100))
  = 2000 * CoreRules.MAX_RISK_PERCENT.
Proof.
  apply (position_size_clamped 2000 (5 # 100)).
  - reflexivity.
  - reflexivity.
  - vm_compute. discriminate.
Defined.

(** * Loading the series *)

(** A frame lacking a required column is refused and the engine's data is
    left as it was. *)
Lemma load_data_missing_column (self : BacktestEngine) (df : DataFrame) (col : string) :
  In col required_columns ->
  has_column df col = false ->
  fst (load_data self df) = false /\ data (snd (load_data self df)) = data self.
Proof.
  intros Hin Hcol. unfold load_data.
  destruct (filter (fun c => negb (has_column df c)) required_columns) eqn:E.
  - exfalso.
    assert (Hf : In col (filter (fun c => negb (has_column df c)) required_columns)).
    { apply filter_In. split; [exact Hin | now rewrite Hcol]. }
    rewrite E in Hf. exact Hf.
  - split; reflexivity.
Qed.

Lemma no_column_missing (df : DataFrame) :
  (forall col, In col required_columns -> has_column df col = true) ->
  filter (fun c => negb (has_column df c)) required_columns = [].
Proof.
  intro Hall.
  destruct (filter (fun c => negb (has_column df c)) required_columns) as [|c l] eqn:E.
  - reflexivity.
  - assert (Hc : In c (filter (fun c => negb (has_column df c)) required_columns))
      by (rewrite E; now left).
    apply filter_In in Hc. destruct Hc as [Hin Hneg].
    rewrite (Hall c Hin) in Hneg. discriminate.
Qed.

(** C2, as stated, fails: a frame whose rows come in the order t1, t0 is
    accepted, its rows are ingested in the order t0, t1, and a run on
    them produces a report. *)
Lemma unordered_series_is_loaded :
  let df := frame_of [candle_t1; candle_t0] in
  strictly_increasing (map timestamp (rows df)) = false /\
  fst (load_data (init 10000) df) = true /\
  data (snd (load_data (init 10000) df)) = Some [candle_t0; candle_t1] /\
  exists results,
    fst (execute_strategy (snd (load_data (init 10000) df)) long_rules)
    = Report results.
Proof.
  repeat split; try reflexivity.
  eexists. vm_compute. reflexivity.
Qed.

(** C2, amended: a frame that has the six required columns is always
    accepted, whatever the order of its timestamps: the engine ingests all
    of its rows, rearranged into non-decreasing timestamp order. *)
Theorem load_data_sorts (self : BacktestEngine) (df : DataFrame) :
  (forall col, In col required_columns -> has_column df col = true) ->
  exists sorted,
    fst (load_data self df) = true /\
    data (snd (load_data self df)) = Some sorted /\
    Permutation (rows df) sorted /\
    StronglySorted (fun a b => (timestamp a <= timestamp b)%Z) sorted.
Proof.
  intro Hall. exists (sort_values (rows df)).
  unfold load_data. rewrite (no_column_missing df Hall). cbn.
  repeat split.
  - apply TimestampSort.Permuted_sort.
  - unfold sort_values.
    assert (Htrans : Relations_1.Transitive
                       (fun a b => is_true (TimestampOrder.leb a b))).
    { intros a b c Hab Hbc. unfold is_true, TimestampOrder.leb in *.
      apply Z.leb_le in Hab, Hbc. apply Z.leb_le. lia. }
    pose proof (TimestampSort.StronglySorted_sort (rows df) Htrans) as Hs.
    induction Hs as [|a l Hs IH Hall']; constructor.
    + exact IH.
    + eapply Forall_impl; [|exact Hall'].
      intros b Hb. unfold is_true, TimestampOrder.leb in Hb.
      now apply Z.leb_le in Hb.
Qed.

Lemma load_data_sorts_witness :
  exists sorted,
    fst (load_data (init 10000) (frame_of [candle_t1; candle_t0])) = true /\
    data (snd (load_data (init 10000) (frame_of [candle_t1; candle_t0])))
    = Some sorted /\
    Permutation (rows (frame_of [candle_t1; candle_t0])) sorted /\
    StronglySorted (fun a b => (timestamp a <= timestamp b)%Z) sorted.
Proof.
  apply (load_data_sorts (init 10000) (frame_of [candle_t1; candle_t0])).
  intros col Hin. cbn in Hin.
  repeat (destruct Hin as [<- | Hin]; [reflexivity|]).
  destruct Hin.
Defined.

(** * The simulation loop *)

Arguments py_sum : simpl never.
Arguments Trade.close : simpl never.

(** What one pass of the loop body can do to the engine at a candle. *)
Inductive Step (c : Candle) (self : BacktestEngine) : BacktestEngine -> Prop :=
| StepClose position price :
    current_position self = Some position ->
    Step c self (_close_position self (timestamp c) price)
| StepHold position :
    current_position self = Some position ->
    Step c self (update_equity_curve self c)
| StepOpen percent direction :
    current_position self = None ->
    Step c self
      (update_equity_curve
         (_open_position self (timestamp c) (close c) percent direction) c)
| StepIdle :
    current_position self = None ->
    Step c self (update_equity_curve self c).

Lemma check_exit_Step rules c prev self position :
  current_position self = Some position ->
  Step c self (check_exit rules c prev self).
Proof.
  intro Hpos. unfold check_exit.
  destruct (_check_exit_conditions c prev rules).
  - now apply StepClose with position.
  - now apply StepHold with position.
Qed.

Lemma loop_body_Step rules p frame i c self :
  Step c self (loop_body rules p frame i c self).
Proof.
  unfold loop_body.
  destruct (current_position self) as [position|] eqn:Hpos.
  - destruct (String.eqb (p_direction p) "long").
    + destruct (Qle_bool (low c) _).
      * now apply StepClose with position.
      * destruct (Qle_bool _ (high c)).
        -- now apply StepClose with position.
        -- now apply check_exit_Step with position.
    + now apply check_exit_Step with position.
  - destruct (_check_entry_conditions c (prev_window frame i) rules).
    + now apply StepOpen.
    + now apply StepIdle.
Qed.

Lemma single_position_app open records records' open' :
  single_position open records = Some open' ->
  single_position open (records ++ records') = single_position open' records'.
Proof.
  revert open. induction records as [|r records IH]; intros open H; cbn in *.
  - now inversion H.
  - destruct r; try (now apply IH);
      destruct open; try discriminate; now apply IH.
Qed.

Lemma count_opened_app records records' :
  count_opened (records ++ records')
  = (count_opened records + count_opened records')%nat.
Proof. unfold count_opened. now rewrite filter_app, length_app. Qed.

Lemma count_closed_app records records' :
  count_closed (records ++ records')
  = (count_closed records + count_closed records')%nat.
Proof. unfold count_closed. now rewrite filter_app, length_app. Qed.

Lemma py_sum_snoc (l : list Q) (x : Q) : py_sum (l ++ [x]) = py_sum l + x.
Proof. unfold py_sum. now rewrite fold_left_app. Qed.

(** The engine [self'] is reached from [self] by [steps] passes of the
    loop body: the log grew by records that respect the one-position
    discipline, every position opened is open or in the trade history,
    every pass that did not close a position left one equity snapshot,
    and the realized capital stays the initial capital plus the profits
    of the trade history. *)
Definition Progress (steps : nat) (self self' : BacktestEngine) : Prop :=
  initial_capital self' = initial_capital self /\
  exists records,
    log self' = log self ++ records /\
    single_position (is_open self) records = Some (is_open self') /\
    (count_opened records + List.length (trades self) + Nat.b2n (is_open self)
     = List.length (trades self') + Nat.b2n (is_open self'))%nat /\
    (List.length (equity_curve self') + count_closed records
     = List.length (equity_curve self) + steps)%nat /\
    (capital_is_realized self -> capital_is_realized self').

Lemma Progress_refl self : Progress 0 self self.
Proof.
  split; [reflexivity|]. exists []. rewrite app_nil_r. cbn.
  repeat split; auto; lia.
Qed.

Lemma Progress_trans n m a b c :
  Progress n a b -> Progress m b c -> Progress (n + m) a c.
Proof.
  intros [Hi1 (r1 & Hl1 & Hs1 & Hc1 & He1 & Hk1)]
         [Hi2 (r2 & Hl2 & Hs2 & Hc2 & He2 & Hk2)].
  split; [congruence|]. exists (r1 ++ r2). repeat split.
  - rewrite Hl2, Hl1. now rewrite app_assoc.
  - now rewrite (single_position_app _ _ _ _ Hs1).
  - rewrite count_opened_app. lia.
  - rewrite count_closed_app. lia.
  - auto.
Qed.

Lemma close_position_realized self ts price :
  capital_is_realized self ->
  capital_is_realized (_close_position self ts price).
Proof.
  unfold capital_is_realized, _close_position. intro H.
  destruct (current_position self) as [position|]; [|exact H].
  cbn. rewrite map_app. cbn [map]. rewrite py_sum_snoc, H. ring.
Qed.

Lemma Step_Progress c self self' : Step c self self' -> Progress 1 self self'.
Proof.
  intros [position price Hpos | position Hpos | percent direction Hpos | Hpos];
    (split; [unfold _close_position; try rewrite Hpos; reflexivity|]).
  - exists [Closed price (Trade.profit (Trade.close position (timestamp c) price))].
    unfold is_open, capital_is_realized, _close_position.
    rewrite Hpos. cbn. rewrite length_app. cbn. repeat split; try lia.
    intro H. rewrite map_app. cbn [map]. rewrite py_sum_snoc, H. ring.
  - exists []. unfold is_open, capital_is_realized. cbn.
    rewrite Hpos, app_nil_r, length_app. cbn. repeat split; auto; lia.
  - eexists [Opened direction (close c) _].
    unfold is_open, capital_is_realized. cbn.
    rewrite Hpos, length_app. cbn. repeat split; auto; lia.
  - exists []. unfold is_open, capital_is_realized. cbn.
    rewrite Hpos, app_nil_r, length_app. cbn. repeat split; auto; lia.
Qed.

Lemma simulate_Progress rules p frame candles :
  forall i self,
    Progress (List.length candles) self (simulate rules p frame i candles self).
Proof.
  induction candles as [|c candles IH]; intros i self; cbn [simulate List.length].
  - apply Progress_refl.
  - change (S (List.length candles)) with (1 + List.length candles)%nat.
    eapply Progress_trans.
    + apply (Step_Progress c), (loop_body_Step rules p frame i c self).
    + apply IH.
Qed.

Lemma simulate_app rules p frame done todo :
  forall i self,
    simulate rules p frame i (done ++ todo) self
    = simulate rules p frame (i + List.length done) todo
        (simulate rules p frame i done self).
Proof.
  induction done as [|c done IH]; intros i self; cbn.
  - now rewrite Nat.add_0_r.
  - rewrite IH. now rewrite Nat.add_succ_r.
Qed.

Lemma run_after_loop self rules first rest :
  run self rules first rest
  = close_at_end (first :: rest) first (after_loop self rules first rest).
Proof. reflexivity. Qed.

Lemma at_start_realized self rules : capital_is_realized (at_start self rules).
Proof. unfold capital_is_realized. cbn. unfold py_sum. cbn. ring. Qed.

Lemma after_loop_Progress self rules first rest :
  Progress (List.length rest) (at_start self rules)
    (after_loop self rules first rest).
Proof. apply simulate_Progress. Qed.

(** The forced close: a position left open by the loop is closed at the
    last candle's close and joins the trade history. *)
Lemma close_at_end_spec frame first self :
  current_position (close_at_end frame first self) = None /\
  initial_capital (close_at_end frame first self) = initial_capital self /\
  equity_curve (close_at_end frame first self) = equity_curve self /\
  (capital_is_realized self -> capital_is_realized (close_at_end frame first self)) /\
  match current_position self with
  | Some position =>
      let last_candle := last frame first in
      let trade :=
        Trade.close position (timestamp last_candle) (close last_candle) in
      trades (close_at_end frame first self) = trades self ++ [trade] /\
      log (close_at_end frame first self)
      = log self ++ [Closed (close last_candle) (Trade.profit trade)]
  | None => close_at_end frame first self = self
  end.
Proof.
  unfold close_at_end.
  destruct (current_position self) as [position|] eqn:Hpos.
  - repeat split.
    + unfold _close_position. now rewrite Hpos.
    + unfold _close_position. now rewrite Hpos.
    + unfold _close_position. now rewrite Hpos.
    + apply close_position_realized.
    + unfold _close_position. now rewrite Hpos.
    + unfold _close_position. now rewrite Hpos.
  - repeat split; auto.
Qed.

(** A whole run, seen from outside. *)
Lemma run_summary self rules first rest :
  let final := run self rules first rest in
  current_position final = None /\
  initial_capital final = initial_capital self /\
  capital_is_realized final /\
  exists records,
    log final
    = log self ++ Backtesting (get (name rules) "Unknown"%string) :: records /\
    single_position false records = Some false /\
    count_opened records = List.length (trades final).
Proof.
  cbn zeta. rewrite run_after_loop.
  destruct (after_loop_Progress self rules first rest)
    as [Hinit (records & Hlog & Hone & Hcount & _ & Hreal)].
  destruct (close_at_end_spec (first :: rest) first
              (after_loop self rules first rest))
    as (Hnone & Hinit' & _ & Hreal' & Hclose).
  specialize (Hreal (at_start_realized self rules)).
  repeat split; auto.
  - now rewrite Hinit', Hinit.
  - cbn in Hlog, Hone, Hcount. unfold is_open in Hone, Hcount.
    destruct (current_position (after_loop self rules first rest))
      as [position|] eqn:Hpos.
    + destruct Hclose as [Htrades Hlog'].
      eexists (records ++ [Closed _ _]). repeat split.
      * rewrite Hlog', Hlog, <- !app_assoc. reflexivity.
      * now rewrite (single_position_app _ _ _ _ Hone).
      * rewrite count_opened_app, Htrades, length_app. cbn in *. lia.
    + rewrite Hclose. exists records. repeat split.
      * rewrite Hlog, <- app_assoc. reflexivity.
      * exact Hone.
      * cbn in Hcount. lia.
Qed.

Lemma execute_strategy_loaded self rules first rest :
  data self = Some (first :: rest) ->
  execute_strategy self rules
  = (_calculate_results (run self rules first rest), run self rules first rest).
Proof. intro Hdata. unfold execute_strategy. now rewrite Hdata. Qed.

(** While a position is open the entry condition plays no part in a pass
    of the loop body. *)
Lemma loop_body_open_ignores_entry rules entry p frame i candle engine position :
  current_position engine = Some position ->
  loop_body (with_entry_conditions entry rules) p frame i candle engine
  = loop_body rules p frame i candle engine.
Proof. intro Hpos. unfold loop_body. now rewrite Hpos. Qed.

(** C6: the records a call of [execute_strategy] adds to the log respect
    the one-position discipline, starting and ending with no position
    open; so do the records of each single pass of the loop body, from
    whatever engine it starts: a pass that finds a position open logs no
    [Opened], and the entry condition plays no part in it. *)
Theorem one_position_at_a_time (self : BacktestEngine) (rules : StrategyRules) :
  (exists records,
     log (snd (execute_strategy self rules)) = log self ++ records /\
     single_position false records = Some false) /\
  (forall p frame i candle engine,
     exists records,
       log (loop_body rules p frame i candle engine) = log engine ++ records /\
       single_position (is_open engine) records
       = Some (is_open (loop_body rules p frame i candle engine))) /\
  (forall entry p frame i candle engine,
     match current_position engine with
     | Some _ =>
         loop_body (with_entry_conditions entry rules) p frame i candle engine
         = loop_body rules p frame i candle engine
     | None => True
     end).
Proof.
  split; [|split].
  - unfold execute_strategy.
    destruct (data self) as [[|first rest]|] eqn:Hdata.
    + exists [NoDataLoaded]. split; reflexivity.
    + destruct (run_summary self rules first rest)
        as (_ & _ & _ & records & Hlog & Hone & _).
      exists (Backtesting (get (name rules) "Unknown"%string) :: records).
      split; [exact Hlog | exact Hone].
    + exists []. split; [now rewrite app_nil_r | reflexivity].
  - intros p frame i candle engine.
    destruct (Step_Progress candle _ _ (loop_body_Step rules p frame i candle engine))
      as [_ (records & Hlog & Hone & _)].
    now exists records.
  - intros entry p frame i candle engine.
    destruct (current_position engine) as [position|] eqn:Hpos; [|exact I].
    now apply loop_body_open_ignores_entry with position.
Qed.



(** * Missing rule fields *)

Lemma parameters_with_defaults rules :
  parameters (with_defaults rules) = parameters rules.
Proof. reflexivity. Qed.

Lemma check_entry_with_defaults current history rules :
  _check_entry_conditions current history (with_defaults rules)
  = _check_entry_conditions current history rules.
Proof.
  unfold _check_entry_conditions. cbn.
  destruct (entry_conditions rules) as [[f | conditions]|]; reflexivity.
Qed.

Lemma check_exit_with_defaults current history rules :
  _check_exit_conditions current history (with_defaults rules)
  = _check_exit_conditions current history rules.
Proof.
  unfold _check_exit_conditions. cbn.
  destruct (exit_conditions rules) as [[f | conditions]|]; reflexivity.
Qed.

Lemma loop_body_with_defaults rules p frame i candle self :
  loop_body (with_defaults rules) p frame i candle self
  = loop_body rules p frame i candle self.
Proof.
  unfold loop_body, check_exit.
  now rewrite check_entry_with_defaults, check_exit_with_defaults.
Qed.

Lemma simulate_with_defaults rules p frame candles :
  forall i self,
    simulate (with_defaults rules) p frame i candles self
    = simulate rules p frame i candles self.
Proof.
  induction candles as [|c candles IH]; intros i self; cbn [simulate].
  - reflexivity.
  - now rewrite loop_body_with_defaults, IH.
Qed.

(** C5, as stated, fails: with the empty rules dict the run is not
    refused; it simulates, trades LONG, and returns a report. *)
Lemma empty_rules_are_simulated :
  let self := engine_with [candle_t0; candle_t1] in
  exists results,
    fst (execute_strategy self empty_rules) = Report results /\
    Results.total_trades results = 1%nat /\
    map Trade.direction (Results.trades results) = ["long"%string] /\
    List.length (equity_curve (snd (execute_strategy self empty_rules))) = 2%nat.
Proof.
  cbn zeta. eexists. split; [vm_compute; reflexivity|].
  repeat split.
Qed.

(** C5, amended: a rule field that is missing is replaced by its default
    (name "Unknown", no entry and no exit conditions, position size 10,
    stop loss 2, take profit 5, direction "long"), and the call behaves
    exactly as it does on the rules with those values written out. *)
Theorem missing_rules_take_defaults (self : BacktestEngine) (rules : StrategyRules) :
  execute_strategy self rules = execute_strategy self (with_defaults rules).
Proof.
  unfold execute_strategy.
  destruct (data self) as [[|first rest]|]; try reflexivity.
  assert (Hrun : run self (with_defaults rules) first rest
                 = run self rules first rest).
  { unfold run. rewrite parameters_with_defaults.
    now rewrite simulate_with_defaults. }
  now rewrite Hrun.
Qed.

(** * Scenarios *)

(** C8, as stated, fails: on the two-candle series the only trade is
    opened at t1 at 92, not at t0 at 100, and it is closed at 92 with a
    profit that is zero, not negative. *)
Lemma two_candle_scenario_opens_at_t1 :
  let final :=
    snd (execute_strategy (engine_with [candle_t0; candle_t1]) long_rules) in
  exists trade,
    trades final = [trade] /\
    Trade.entry_time trade = timestamp candle_t1 /\
    Trade.entry_price trade = 92 /\
    Trade.exit_time trade = Some (timestamp candle_t1) /\
    Trade.exit_price trade = Some 92 /\
    Trade.profit trade == 0 /\
    ~ Trade.profit trade < 0.
Proof.
  cbn zeta. eexists. split; [vm_compute; reflexivity|].
  repeat split. intro H. vm_compute in H. discriminate H.
Qed.

(** C8, amended: the loop starts at the second row.  On the two-candle
    series the LONG position is opened at t1 at that candle's close, 92,
    and closed there at the end of the series with zero profit.  With one
    more candle in front of the series, the position is opened at t0 at
    100, and at t1 the low of 90 breaches the stop-loss level of 99: the
    position is closed at 99 with a profit of -10. *)
Theorem stop_loss_scenario :
  (let final :=
     snd (execute_strategy (engine_with [candle_t0; candle_t1]) long_rules) in
   exists trade,
     trades final = [trade] /\
     Trade.entry_time trade = timestamp candle_t1 /\
     Trade.entry_price trade == 92 /\
     Trade.exit_time trade = Some (timestamp candle_t1) /\
     (exists price, Trade.exit_price trade = Some price /\ price == 92) /\
     Trade.profit trade == 0) /\
  (let final :=
     snd (execute_strategy
            (engine_with [candle_before; candle_t0; candle_t1]) long_rules) in
   exists trade,
     trades final = [trade] /\
     Trade.direction trade = "long"%string /\
     Trade.entry_time trade = timestamp candle_t0 /\
     Trade.entry_price trade == 100 /\
     low candle_t1 <= Trade.entry_price trade * (1 - 1 / 100) /\
     Trade.exit_time trade = Some (timestamp candle_t1) /\
     (exists price, Trade.exit_price trade = Some price /\ price == 99) /\
     Trade.profit trade == -10 /\
     Trade.profit trade < 0).
Proof.
  split; cbn zeta.
  - eexists. split; [vm_compute; reflexivity|].
    repeat split. eexists. split; reflexivity.
  - eexists. split; [vm_compute; reflexivity|].
    repeat split; try (vm_compute; discriminate).
    eexists. split; reflexivity.
Qed.

(** The metrics and indicators on small inputs. *)

Example max_drawdown_sample :
  let equity := [10000; 10500; 9800; 10200] in
  option_map Qred
    (option_map Qabs (array_min (drawdown equity (maximum_accumulate equity))))
  = Some (20 # 3).
Proof. reflexivity. Qed.

Example rsi_needs_fifteen_prices :
  _calculate_rsi [1; 2; 3; 4; 5; 6; 7; 8; 9; 10; 11; 12; 13; 14] 14 = None.
Proof. reflexivity. Qed.

Example rsi_of_a_steady_rise :
  _calculate_rsi [1; 2; 3; 4; 5; 6; 7; 8; 9; 10; 11; 12; 13; 14; 15] 14
  = Some (Fin 100).
Proof. reflexivity. Qed.

Example rsi_of_a_flat_series :
  _calculate_rsi [1; 1; 1; 1; 1; 1; 1; 1; 1; 1; 1; 1; 1; 1; 1] 14 = Some NaN.
Proof. reflexivity. Qed.

Example short_profit_sign :
  Trade.profit (Trade.close (Trade.init 0 100 10 "short") 1 90) == 100 /\
  Trade.profit (Trade.close (Trade.init 0 100 10 "long") 1 90) == - (100).
Proof. split; reflexivity. Qed.

(** * Divergences *)

(** C3 at a failing input: SHORT rules with a 1% stop, a position opened
    at 100 at [candle_t0], and [candle_spike] whose high of 110 is above
    the stop-loss level of 101.  The pass over [candle_spike] leaves the
    position open; it is closed only by the forced close after
    [candle_after], at 120, with a profit of -200. *)
Theorem short_position_ignores_stop_loss :
  let frame := [candle_before; candle_t0; candle_spike; candle_after] in
  let self := engine_with frame in
  let start := at_start self short_rules in
  let opened :=
    simulate short_rules (parameters short_rules) frame 1 [candle_t0] start in
  let spiked :=
    loop_body short_rules (parameters short_rules) frame 2 candle_spike opened in
  let final := snd (execute_strategy self short_rules) in
  (exists position,
     current_position opened = Some position /\
     Trade.direction position = "short"%string /\
     Trade.entry_price position = 100 /\
     Trade.entry_price position * (1 + 1 / 100) <= high candle_spike /\
     current_position spiked = Some position /\
     trades spiked = []) /\
  (exists trade,
     trades final = [trade] /\
     Trade.exit_time trade = Some (timestamp candle_after) /\
     Trade.exit_price trade = Some 120 /\
     Trade.profit trade == -200).
Proof.
  cbn zeta. split.
  - eexists. split; [vm_compute; reflexivity|].
    repeat split. vm_compute. discriminate.
  - eexists. split; [vm_compute; reflexivity|].
    repeat split.
Qed.

(** Under rules whose direction is not "long" and whose exit condition
    does not fire, a pass of the loop body never closes the open
    position, whatever the candle's high and low. *)
Lemma loop_body_not_long_holds rules p frame i candle self position :
  String.eqb (p_direction p) "long" = false ->
  _check_exit_conditions candle (prev_window frame i) rules = false ->
  current_position self = Some position ->
  current_position (loop_body rules p frame i candle self) = Some position /\
  trades (loop_body rules p frame i candle self) = trades self.
Proof.
  intros Hdir Hexit Hpos. unfold loop_body, check_exit.
  rewrite Hpos, Hdir, Hexit. cbn. now rewrite Hpos.
Qed.

(** After the loop the equity curve holds the initial capital and one
    snapshot for each pass that did not close a position. *)
Lemma equity_curve_length self rules first rest :
  exists records,
    log (after_loop self rules first rest)
    = log (at_start self rules) ++ records /\
    (List.length (equity_curve (after_loop self rules first rest))
     + count_closed records
     = 1 + List.length rest)%nat.
Proof.
  destruct (after_loop_Progress self rules first rest)
    as [_ (records & Hlog & _ & _ & Hequity & _)].
  exists records. split; [exact Hlog | exact Hequity].
Qed.

(** C4 at a failing input: the LONG run over two simulated candles that
    is stopped out at the second.  The equity curve ends up with the
    initial capital and the snapshot of the first simulated candle only;
    the candle at which the position is closed adds none, and the
    capital after the loss, 9990, never shows in the curve. *)
Theorem closing_candle_leaves_no_snapshot :
  let frame := [candle_before; candle_t0; candle_t1] in
  let self := engine_with frame in
  let start := at_start self long_rules in
  let opened :=
    simulate long_rules (parameters long_rules) frame 1 [candle_t0] start in
  let stopped :=
    loop_body long_rules (parameters long_rules) frame 2 candle_t1 opened in
  let final := snd (execute_strategy self long_rules) in
  List.length (equity_curve start) = 1%nat /\
  List.length (equity_curve opened) = 2%nat /\
  List.length (trades stopped) = 1%nat /\
  equity_curve stopped = equity_curve opened /\
  List.length (equity_curve final) = 2%nat /\
  Forall2 Qeq (equity_curve final) [10000; 10000] /\
  capital final == 9990.
Proof.
  cbn zeta. repeat split.
  vm_compute. repeat constructor.
Qed.

(** * Double precision: realized capital and profit factor *)

Module DoublesFacts.

Import Doubles.

Local Open Scope float_scope.

(** ** Classes of doubles *)

Lemma SFcompare_finite_refl (s : bool) (m : positive) (e : Z) :
  SFcompare (S754_finite s m e) (S754_finite s m e) = Some Eq.
Proof.
  cbn. destruct s; rewrite Z.compare_refl, Pos.compare_cont_refl; reflexivity.
Qed.

Lemma is_nan_class (x : float) :
  is_nan x = match Prim2SF x with S754_nan => true | _ => false end.
Proof.
  unfold is_nan. rewrite eqb_spec. unfold SFeqb.
  destruct (Prim2SF x) as [s | s | | s m e].
  - reflexivity.
  - destruct s; reflexivity.
  - reflexivity.
  - now rewrite SFcompare_finite_refl.
Qed.

Lemma is_infinity_class (x : float) :
  is_infinity x = match Prim2SF x with S754_infinity _ => true | _ => false end.
Proof.
  unfold is_infinity. rewrite eqb_spec, abs_spec. unfold SFeqb.
  change (Prim2SF infinity) with (S754_infinity false).
  destruct (Prim2SF x) as [s | s | | s m e]; reflexivity.
Qed.

Lemma eqb_zero_class (x : float) :
  (x =? 0) = match Prim2SF x with S754_zero _ => true | _ => false end.
Proof.
  rewrite eqb_spec. unfold SFeqb.
  change (Prim2SF 0) with (S754_zero false).
  destruct (Prim2SF x) as [s | s | | s m e]; try reflexivity;
    destruct s; reflexivity.
Qed.

(** A double is above 0, or at most 0, or [nan]: exactly one of the
    three. *)
Lemma sign_classes (x : float) :
  if is_nan x then (0 <? x) = false /\ (x <=? 0) = false
  else (x <=? 0) = negb (0 <? x).
Proof.
  unfold is_nan. rewrite eqb_spec, ltb_spec, leb_spec.
  change (Prim2SF 0) with (S754_zero false).
  unfold SFeqb, SFltb, SFleb.
  destruct (Prim2SF x) as [s | s | | s m e].
  - reflexivity.
  - destruct s; reflexivity.
  - split; reflexivity.
  - rewrite SFcompare_finite_refl. destruct s; reflexivity.
Qed.

(** Rounding a mantissa that is not negative never gives [nan]. *)
Lemma shr_1_nonneg (mrs : shr_record) :
  (0 <= shr_m mrs)%Z -> (0 <= shr_m (shr_1 mrs))%Z.
Proof.
  destruct mrs as [m r s]. cbn [shr_m shr_1].
  destruct m as [|p|p]; [easy| |lia].
  intros _. destruct p; cbn; lia.
Qed.

Lemma iter_pos_shr_1_nonneg (n : positive) :
  forall mrs, (0 <= shr_m mrs)%Z -> (0 <= shr_m (iter_pos shr_1 n mrs))%Z.
Proof.
  induction n as [n IH | n IH |]; intros mrs H; cbn [iter_pos].
  - apply IH, IH, shr_1_nonneg, H.
  - apply IH, IH, H.
  - apply shr_1_nonneg, H.
Qed.

Lemma shr_fexp_nonneg (prec emax m e : Z) (l : location) :
  (0 <= m)%Z -> (0 <= shr_m (fst (shr_fexp prec emax m e l)))%Z.
Proof.
  intro H. unfold shr_fexp, shr.
  assert (H0 : (0 <= shr_m (shr_record_of_loc m l))%Z).
  { destruct l as [|[]]; exact H. }
  destruct (_ - e)%Z; cbn [fst]; try exact H0.
  now apply iter_pos_shr_1_nonneg.
Qed.

Lemma round_nearest_even_nonneg (m : Z) (l : location) :
  (0 <= m)%Z -> (0 <= round_nearest_even m l)%Z.
Proof.
  intro H. unfold round_nearest_even.
  destruct l as [|[]]; try destruct (Z.even m); lia.
Qed.

Lemma binary_round_aux_not_nan (prec emax : Z) (sx : bool) (mx ex : Z)
    (lx : location) :
  (0 <= mx)%Z ->
  binary_round_aux prec emax sx mx ex lx <> S754_nan.
Proof.
  intro H. unfold binary_round_aux.
  pose proof (shr_fexp_nonneg prec emax mx ex lx H) as H1.
  destruct (shr_fexp prec emax mx ex lx) as [mrs' e']. cbn [fst] in H1.
  pose proof (shr_fexp_nonneg prec emax _ e' loc_Exact
                (round_nearest_even_nonneg _ (loc_of_shr_record mrs') H1)) as H2.
  destruct (shr_fexp prec emax _ e' loc_Exact) as [mrs'' e'']. cbn [fst] in H2.
  destruct (shr_m mrs'') as [|p|p]; [discriminate| |lia].
  destruct (e'' <=? emax - prec)%Z; discriminate.
Qed.

Lemma SFdiv_core_binary_nonneg (prec emax : Z) (m1 : positive) (e1 : Z)
    (m2 : positive) (e2 : Z) :
  (0 <= fst (fst (SFdiv_core_binary prec emax (Zpos m1) e1 (Zpos m2) e2)))%Z.
Proof.
  unfold SFdiv_core_binary.
  set (s := (_ - _ - _)%Z).
  set (m' := match s with Zpos _ => _ | Z0 => _ | Zneg _ => _ end).
  assert (Hm : (0 <= m')%Z).
  { subst m'. destruct s; try lia. apply Z.shiftl_nonneg. lia. }
  pose proof (Z.div_pos m' (Zpos m2) Hm eq_refl) as Hq.
  unfold Z.div in Hq.
  destruct (Z.div_eucl m' (Zpos m2)) as [q r]. exact Hq.
Qed.

Lemma SFdiv_nan (prec emax : Z) (x y : spec_float) :
  SFdiv prec emax x y = S754_nan <->
  x = S754_nan \/ y = S754_nan \/
  (exists sx sy, x = S754_infinity sx /\ y = S754_infinity sy) \/
  (exists sx sy, x = S754_zero sx /\ y = S754_zero sy).
Proof.
  destruct x as [sx | sx | | sx mx ex], y as [sy | sy | | sy my ey];
    cbn [SFdiv];
    try (split;
         [discriminate
         | intros [H | [H | [(? & ? & H & H') | (? & ? & H & H')]]];
           discriminate]);
    try (split; [intros _ | reflexivity]; solve [auto | eauto 8]).
  pose proof (SFdiv_core_binary_nonneg prec emax mx ex my ey) as H.
  destruct (SFdiv_core_binary prec emax (Zpos mx) ex (Zpos my) ey)
    as [[mz ez] lz].
  cbn [fst] in H.
  split.
  - intro E. now apply binary_round_aux_not_nan in E.
  - intros [H' | [H' | [(? & ? & H' & _) | (? & ? & H' & _)]]]; discriminate.
Qed.

(** The quotient of two doubles, in absolute value, is [nan] exactly
    when an operand is, or both are infinite, or both are zero. *)
Lemma abs_div_is_nan (x y : float) :
  is_nan (abs (x / y))
  = is_nan x || is_nan y || (is_infinity x && is_infinity y)
    || ((x =? 0) && (y =? 0)).
Proof.
  rewrite !is_nan_class, !is_infinity_class, !eqb_zero_class, abs_spec, div_spec.
  unfold SF64div.
  pose proof (SFdiv_nan prec emax (Prim2SF x) (Prim2SF y)) as H.
  destruct (SFdiv prec emax (Prim2SF x) (Prim2SF y)) as [s | s | | s m e] eqn:E.
  - cbn [SFabs].
    destruct (Prim2SF x) as [sx | sx | | sx mx ex],
             (Prim2SF y) as [sy | sy | | sy my ey]; try reflexivity;
      exfalso; cbn in E; discriminate E.
  - cbn [SFabs].
    destruct (Prim2SF x) as [sx | sx | | sx mx ex],
             (Prim2SF y) as [sy | sy | | sy my ey]; try reflexivity;
      exfalso; cbn in E; discriminate E.
  - cbn [SFabs]. destruct H as [H _]. specialize (H eq_refl).
    destruct H as [-> | [-> | [(sx & sy & -> & ->) | (sx & sy & -> & ->)]]];
      try reflexivity.
    destruct (Prim2SF x) as [sx | sx | | sx mx ex]; reflexivity.
  - cbn [SFabs].
    destruct (Prim2SF x) as [sx | sx | | sx mx ex],
             (Prim2SF y) as [sy | sy | | sy my ey]; try reflexivity;
      exfalso; cbn in E; discriminate E.
Qed.

(** ** The loop and the capital *)

Lemma close_position_effect (candle : Candle) (e : BacktestEngine)
    (position : Trade.t) (price : float) :
  current_position e = Some position ->
  pass_effect candle e (_close_position e (timestamp candle) price).
Proof.
  intro Hpos. right. exists position, price.
  unfold _close_position. rewrite Hpos. repeat split.
Qed.

Lemma loop_body_effect lib rules p frame i candle e :
  initial_capital (loop_body lib rules p frame i candle e) = initial_capital e /\
  pass_effect candle e (loop_body lib rules p frame i candle e).
Proof.
  unfold loop_body, check_exit.
  destruct (current_position e) as [position|] eqn:Hpos.
  - assert (Hinit : forall price,
               initial_capital (_close_position e (timestamp candle) price)
               = initial_capital e).
    { intro price. unfold _close_position. now rewrite Hpos. }
    repeat match goal with
           | |- context [if ?c then _ else _] => destruct c
           end;
      try (split; [apply Hinit | now apply close_position_effect with position]);
      (split; [reflexivity | left; split; reflexivity]).
  - destruct (_check_entry_conditions lib candle (prev_window frame i) rules);
      (split; [reflexivity | left; split; reflexivity]).
Qed.

Lemma fold_left_snoc (l : list float) (x a : float) :
  fold_left PrimFloat.add (l ++ [x]) a = fold_left PrimFloat.add l a + x.
Proof. now rewrite fold_left_app. Qed.

Lemma pass_keeps_running_sum candle e e' :
  initial_capital e' = initial_capital e ->
  pass_effect candle e e' ->
  capital_is_running_sum e ->
  capital_is_running_sum e'.
Proof.
  unfold capital_is_running_sum.
  intros Hinit [[Hcap Htrades] | (position & price & _ & Hcap & Htrades)] Hsum.
  - now rewrite Hcap, Htrades, Hinit.
  - cbn zeta in Hcap, Htrades.
    rewrite Hcap, Htrades, Hinit, map_app. cbn [map].
    now rewrite fold_left_snoc, Hsum.
Qed.

Lemma simulate_running_sum lib rules p frame candles :
  forall i e,
    capital_is_running_sum e ->
    capital_is_running_sum (simulate lib rules p frame i candles e) /\
    initial_capital (simulate lib rules p frame i candles e) = initial_capital e.
Proof.
  induction candles as [|c candles IH]; intros i e Hsum; cbn [simulate].
  - now split.
  - destruct (loop_body_effect lib rules p frame i c e) as [Hinit Heffect].
    destruct (IH (S i) _ (pass_keeps_running_sum c _ _ Hinit Heffect Hsum))
      as [Hsum' Hinit'].
    split; [exact Hsum' | now rewrite Hinit'].
Qed.

Lemma simulate_split lib rules p frame done todo :
  forall i e,
    simulate lib rules p frame i (done ++ todo) e
    = simulate lib rules p frame (i + List.length done) todo
        (simulate lib rules p frame i done e).
Proof.
  induction done as [|c done IH]; intros i e; cbn.
  - now rewrite Nat.add_0_r.
  - rewrite IH. now rewrite Nat.add_succ_r.
Qed.

Lemma reset_running_sum (self : BacktestEngine) :
  capital_is_running_sum (reset self).
Proof. reflexivity. Qed.

Lemma run_running_sum lib self rules first rest :
  capital_is_running_sum (run lib self rules first rest) /\
  initial_capital (run lib self rules first rest) = initial_capital self.
Proof.
  unfold run, after_loop.
  destruct (simulate_running_sum lib rules (parameters rules) (first :: rest)
              rest 1%nat (reset self) (reset_running_sum self))
    as [Hsum Hinit].
  unfold close_at_end.
  destruct (current_position _) as [position|] eqn:Hpos;
    [|split; [exact Hsum | exact Hinit]].
  set (last_candle := last (first :: rest) first).
  pose proof (close_position_effect last_candle _ position (close last_candle) Hpos)
    as Heffect.
  assert (Hinit' :
    initial_capital
      (_close_position
         (simulate lib rules (parameters rules) (first :: rest) 1 rest
            (reset self))
         (timestamp last_candle) (close last_candle))
    = initial_capital
        (simulate lib rules (parameters rules) (first :: rest) 1 rest
           (reset self))).
  { unfold _close_position. now rewrite Hpos. }
  split.
  - exact (pass_keeps_running_sum last_candle _ _ Hinit' Heffect Hsum).
  - now rewrite Hinit'.
Qed.

Lemma execute_strategy_on_frame lib self rules first rest :
  data self = Some (first :: rest) ->
  execute_strategy lib self rules
  = (_calculate_results lib (run lib self rules first rest),
     run lib self rules first rest).
Proof. intro Hdata. unfold execute_strategy. now rewrite Hdata. Qed.

(** The entries of a report, read off the engine. *)
Lemma report_entries lib (self : BacktestEngine) (results : Results.t) :
  _calculate_results lib self = Report results ->
  trades self <> [] /\
  Results.trades results = trades self /\
  Results.initial_capital results = initial_capital self /\
  Results.final_capital results = capital self /\
  Results.total_profit results = py_sum (map Trade.profit (trades self)) /\
  Results.total_return_percent results
  = (capital self - initial_capital self) / initial_capital self * 100 /\
  Results.avg_win results = average lib (winning (trades self)) /\
  Results.avg_loss results = average lib (losing (trades self)) /\
  Results.profit_factor results
  = profit_factor_of (average lib (winning (trades self)))
      (average lib (losing (trades self))).
Proof.
  unfold _calculate_results.
  destruct (trades self) as [|t l] eqn:Htrades; [discriminate|].
  intro H. injection H as <-.
  split; [discriminate|]. repeat split.
Qed.

(** C10, as stated, fails: after the one trade from 3.0 to 3.1 the final
    capital minus the initial capital is not the total profit but a
    number above it, and the total return percent is not the total
    profit over the initial capital, times 100. *)
Lemma capital_difference_is_rounded :
  exists results,
    fst (execute_strategy sequential (engine_with small_rise_frame) empty_rules)
    = Report results /\
    Results.total_trades results = 1%nat /\
    (Results.final_capital results - Results.initial_capital results
     =? Results.total_profit results) = false /\
    (Results.total_profit results
     <? Results.final_capital results - Results.initial_capital results) = true /\
    (Results.total_return_percent results
     =? Results.total_profit results / Results.initial_capital results * 100)
    = false.
Proof.
  eexists. split; [vm_compute; reflexivity|].
  repeat split.
Qed.

(** C10, amended: during a run on the frame [first :: done ++ todo], the
    engine after the passes over [done] is the one the rest of the loop
    goes on from, and its capital is the initial capital with the profits
    of the trades closed so far added to it one by one, in closing order,
    each pass changing the capital only by adding the profit of a trade
    it closes; the same holds when the run is over, and in the results
    the final capital is that running sum, the total profit is the sum
    of the same profits from 0, and the total return percent is final
    capital minus initial capital, over the initial capital, times 100,
    all as computed in double precision. *)
Theorem capital_is_the_running_sum (lib : Library) (self : BacktestEngine)
    (rules : StrategyRules) (first : Candle) (done todo : list Candle) :
  data self = Some (first :: done ++ todo) ->
  let frame := first :: done ++ todo in
  let engine := simulate lib rules (parameters rules) frame 1 done (reset self) in
  after_loop lib self rules first (done ++ todo)
  = simulate lib rules (parameters rules) frame (1 + List.length done) todo engine /\
  capital_is_running_sum engine /\
  initial_capital engine = initial_capital self /\
  (forall i candle e,
     pass_effect candle e (loop_body lib rules (parameters rules) frame i candle e)) /\
  capital_is_running_sum (snd (execute_strategy lib self rules)) /\
  match fst (execute_strategy lib self rules) with
  | Report results =>
      Results.initial_capital results = initial_capital self /\
      Results.final_capital results
      = fold_left PrimFloat.add (map Trade.profit (Results.trades results))
          (initial_capital self) /\
      Results.total_profit results
      = fold_left PrimFloat.add (map Trade.profit (Results.trades results)) 0 /\
      Results.total_return_percent results
      = (Results.final_capital results - Results.initial_capital results)
        / Results.initial_capital results * 100
  | _ => trades (snd (execute_strategy lib self rules)) = []
  end.
Proof.
  intro Hdata. cbn zeta.
  rewrite (execute_strategy_on_frame lib self rules first (done ++ todo) Hdata).
  cbn [fst snd].
  destruct (simulate_running_sum lib rules (parameters rules)
              (first :: done ++ todo) done 1%nat (reset self)
              (reset_running_sum self)) as [Hsum Hinit].
  destruct (run_running_sum lib self rules first (done ++ todo))
    as [Hfinal Hinit'].
  split; [unfold after_loop; apply simulate_split|].
  split; [exact Hsum|].
  split; [exact Hinit|].
  split; [intros i candle e; apply loop_body_effect|].
  split; [exact Hfinal|].
  destruct (_calculate_results lib (run lib self rules first (done ++ todo)))
    as [| total error | results] eqn:Hcalc.
  - unfold _calculate_results in Hcalc.
    destruct (trades (run lib self rules first (done ++ todo)));
      [reflexivity | discriminate].
  - unfold _calculate_results in Hcalc.
    destruct (trades (run lib self rules first (done ++ todo)));
      [reflexivity | discriminate].
  - destruct (report_entries lib _ results Hcalc)
      as (_ & Htrades & Hi & Hf & Hprofit & Hreturn & _).
    rewrite Hi, Hf, Hprofit, Hreturn, Htrades, Hinit'.
    unfold capital_is_running_sum in Hfinal. rewrite Hinit' in Hfinal.
    repeat split. exact Hfinal.
Qed.

Lemma capital_is_the_running_sum_witness :
  let self := engine_with swing_frame in
  capital_is_running_sum
    (simulate sequential in_and_out_short (parameters in_and_out_short)
       swing_frame 1 [flat 1 10; flat 2 20] (reset self)) /\
  capital_is_running_sum
    (snd (execute_strategy sequential self in_and_out_short)).
Proof.
  pose proof (capital_is_the_running_sum sequential (engine_with swing_frame)
                in_and_out_short (flat 0 100) [flat 1 10; flat 2 20]
                [flat 3 20; flat 4 10] eq_refl) as H.
  cbn zeta in H. destruct H as (_ & Hloop & _ & _ & Hend & _).
  cbn zeta. split; [exact Hloop | exact Hend].
Defined.

(** C9, as stated, fails: after an entry at a close of 0 the position
    size is infinite, the two trades of the run have profits of minus
    and plus infinity, the average loss is not 0, and the profit factor
    is [nan]. *)
Lemma profit_factor_is_nan_after_zero_close :
  exists results profit_factor,
    fst (execute_strategy sequential (engine_with zero_close_frame)
           in_and_out_short) = Report results /\
    map Trade.profit (Results.trades results) = [neg_infinity; infinity] /\
    Results.avg_win results = infinity /\
    Results.avg_loss results = neg_infinity /\
    Results.profit_factor results = Some profit_factor /\
    is_nan profit_factor = true.
Proof.
  eexists _, _. split; [vm_compute; reflexivity|].
  repeat split.
Qed.

Lemma profit_factor_of_cases (avg_win avg_loss : float) :
  ((avg_loss =? 0) = false ->
   profit_factor_of avg_win avg_loss = Some (abs (avg_win / avg_loss))) /\
  ((avg_loss =? 0) = true -> profit_factor_of avg_win avg_loss = Some 0).
Proof.
  unfold profit_factor_of, checked_div.
  split; intro H; rewrite H; reflexivity.
Qed.

(** C9, amended: in the report of a run the profit factor is always
    computed, never by a division by zero: it is exactly 0 when the
    average loss is 0, as it is when no trade lost, and otherwise it is
    the absolute value of average win over average loss as double
    precision gives it.  It is [nan] exactly when the average loss is not
    0 and one of the two averages is [nan] or both are infinite; so it is
    a number whenever both averages are finite. *)
Theorem profit_factor_is_guarded (lib : Library) (self : BacktestEngine)
    (rules : StrategyRules) (results : Results.t) :
  fst (execute_strategy lib self rules) = Report results ->
  let avg_win := average lib (winning (Results.trades results)) in
  let avg_loss := average lib (losing (Results.trades results)) in
  Results.trades results <> [] /\
  Results.avg_win results = avg_win /\
  Results.avg_loss results = avg_loss /\
  ((avg_loss =? 0) = false ->
   Results.profit_factor results = Some (abs (avg_win / avg_loss))) /\
  ((avg_loss =? 0) = true -> Results.profit_factor results = Some 0) /\
  (losing (Results.trades results) = [] ->
   Results.profit_factor results = Some 0) /\
  (exists profit_factor,
     Results.profit_factor results = Some profit_factor /\
     is_nan profit_factor
     = negb (avg_loss =? 0)
       && (is_nan avg_win || is_nan avg_loss
           || (is_infinity avg_win && is_infinity avg_loss))).
Proof.
  intro Hrun. cbn zeta.
  assert (Hcalc : exists engine, _calculate_results lib engine = Report results).
  { unfold execute_strategy in Hrun.
    destruct (data self) as [[|first rest]|]; try discriminate Hrun.
    now exists (run lib self rules first rest). }
  destruct Hcalc as [engine Hcalc].
  destruct (report_entries lib engine results Hcalc)
    as (Hne & Htrades & _ & _ & _ & _ & Hwin & Hloss & Hpf).
  rewrite Htrades, Hwin, Hloss, Hpf.
  destruct (profit_factor_of_cases (average lib (winning (trades engine)))
              (average lib (losing (trades engine)))) as [Hnonzero Hzero].
  split; [exact Hne|].
  split; [reflexivity|].
  split; [reflexivity|].
  split; [exact Hnonzero|].
  split; [exact Hzero|].
  split; [intro Hnone; rewrite Hnone; reflexivity|].
  destruct (average lib (losing (trades engine)) =? 0) eqn:E.
  - exists 0. split; [exact (Hzero eq_refl) | reflexivity].
  - eexists. split; [exact (Hnonzero eq_refl)|].
    rewrite abs_div_is_nan, E, andb_false_r, orb_false_r. reflexivity.
Qed.

Lemma profit_factor_is_guarded_witness :
  exists results,
    fst (execute_strategy sequential (engine_with swing_frame) in_and_out_short)
    = Report results /\
    Results.profit_factor results
    = Some (abs (average sequential (winning (Results.trades results))
                 / average sequential (losing (Results.trades results)))).
Proof.
  assert (E : exists results,
             fst (execute_strategy sequential (engine_with swing_frame)
                    in_and_out_short) = Report results)
    by (eexists; vm_compute; reflexivity).
  destruct E as [results E]. exists results. split; [exact E|].
  pose proof (profit_factor_is_guarded sequential (engine_with swing_frame)
                in_and_out_short results E) as H.
  cbn zeta in H. destruct H as (_ & _ & _ & Hpf & _).
  apply Hpf.
  assert (Hresults : Report results
                     = fst (execute_strategy sequential (engine_with swing_frame)
                              in_and_out_short)) by (symmetry; exact E).
  vm_compute in Hresults. injection Hresults as ->. vm_compute. reflexivity.
Defined.

(** ** Counting the trades *)

Lemma classes_count (l : list Trade.t) :
  (List.length (winning l) + List.length (losing l)
   + List.length (filter (fun t => is_nan (Trade.profit t)) l)
   = List.length l)%nat.
Proof.
  unfold winning, losing.
  induction l as [|t l IH]; [reflexivity|].
  cbn [filter]. pose proof (sign_classes (Trade.profit t)) as H.
  destruct (is_nan (Trade.profit t)).
  - destruct H as [-> ->]. cbn [List.length]. lia.
  - rewrite H. destruct (0 <? Trade.profit t); cbn [negb List.length]; lia.
Qed.

(** The counts of a report, read off the engine. *)
Lemma report_counts lib (self : BacktestEngine) (results : Results.t) :
  _calculate_results lib self = Report results ->
  trades self <> [] /\
  Results.trades results = trades self /\
  Results.total_trades results = List.length (trades self) /\
  Results.winning_trades results = List.length (winning (trades self)) /\
  Results.losing_trades results = List.length (losing (trades self)) /\
  Results.win_rate results
  = float_of_nat (Results.winning_trades results)
    / float_of_nat (Results.total_trades results) * 100.
Proof.
  unfold _calculate_results.
  destruct (trades self) as [|t l] eqn:Htrades; [discriminate|].
  intro H. injection H as <-.
  split; [discriminate|]. repeat split.
Qed.

(** X23: in the report of a run the trade counts are those of the trade
    history, which is not empty: a trade counts as winning when its
    profit is above 0, as losing when its profit is at most 0, and as
    neither when its profit is [nan]; the three groups make up the
    history, and the win rate is the winning count over the total count,
    times 100, in double precision. *)
Theorem results_counts (lib : Library) (self : BacktestEngine)
    (rules : StrategyRules) (results : Results.t) :
  fst (execute_strategy lib self rules) = Report results ->
  let history := trades (snd (execute_strategy lib self rules)) in
  Results.trades results = history /\
  history <> [] /\
  Results.total_trades results = List.length history /\
  Results.winning_trades results = List.length (winning history) /\
  Results.losing_trades results = List.length (losing history) /\
  (Results.winning_trades results + Results.losing_trades results
   + List.length (filter (fun t => is_nan (Trade.profit t)) history)
   = Results.total_trades results)%nat /\
  Results.win_rate results
  = float_of_nat (Results.winning_trades results)
    / float_of_nat (Results.total_trades results) * 100.
Proof.
  intro Hrun. cbn zeta.
  unfold execute_strategy in *.
  destruct (data self) as [[|first rest]|]; try discriminate Hrun.
  cbn [fst snd] in *.
  destruct (report_counts lib _ results Hrun)
    as (Hne & Htrades & Htotal & Hwin & Hloss & Hrate).
  rewrite Htotal, Hwin, Hloss.
  split; [exact Htrades|].
  split; [exact Hne|].
  split; [reflexivity|].
  split; [reflexivity|].
  split; [reflexivity|].
  split; [apply classes_count|].
  rewrite Hrate, Hwin, Htotal. reflexivity.
Qed.

Lemma results_counts_witness :
  exists results,
    fst (execute_strategy sequential (engine_with nan_profit_frame)
           in_and_out_short) = Report results /\
    Results.total_trades results = 1%nat /\
    (Results.winning_trades results + Results.losing_trades results
     + List.length
         (filter (fun t => is_nan (Trade.profit t))
            (trades (snd (execute_strategy sequential
                            (engine_with nan_profit_frame) in_and_out_short))))
     = Results.total_trades results)%nat.
Proof.
  assert (E : exists results,
             fst (execute_strategy sequential (engine_with nan_profit_frame)
                    in_and_out_short) = Report results
             /\ Results.total_trades results = 1%nat)
    by (eexists; split; vm_compute; reflexivity).
  destruct E as [results [E Htotal]]. exists results.
  split; [exact E|]. split; [exact Htotal|].
  pose proof (results_counts sequential (engine_with nan_profit_frame)
                in_and_out_short results E) as H.
  cbn zeta in H. destruct H as (_ & _ & _ & _ & _ & Hcount & _).
  exact Hcount.
Defined.



(** The target level of an entry at 100 with a take profit of 10 is the
    double above 110: a candle whose high is 110 does not reach it. *)
Example target_level_is_rounded :
  let position := Trade.init 0 100 10 "long" in
  let self := mkEngine 10000 10000 [] [10000] (Some position) None in
  let rules :=
    mkRules None None None None (Some 2) (Some 10) (Some "long"%string) in
  (100 * (1 + 10 / 100) <=? 110) = false /\
  current_position
    (loop_body sequential rules (parameters rules) [] 2
       (mkCandle 2 105 110 105 108 1) self)
  = Some position.
Proof. cbn zeta. split; vm_compute; reflexivity. Qed.

End DoublesFacts.

(** * Further properties: config/core_rules.py *)

Ltac case_Qltb a b :=
  let E := fresh "E" in
  destruct (Qltb a b) eqn:E;
  [apply Qltb_lt in E | apply Qltb_ge in E].

Lemma py_min_le_r (a b : Q) : py_min a b <= b.
Proof.
  unfold py_min. case_Qltb b a; [apply Qle_refl | exact E].
Qed.

Lemma py_max_ge_r (a b : Q) : b <= py_max a b.
Proof.
  unfold py_max. case_Qltb a b; [apply Qle_refl | exact E].
Qed.

Lemma py_max_mono_l (a a' b : Q) : a <= a' -> py_max a b <= py_max a' b.
Proof.
  intro H. unfold py_max. case_Qltb a b; case_Qltb a' b; lra.
Qed.

(** X1: whatever is requested, the size is never below the minimum
    position size, and for a non-negative capital never above the larger
    of capital x hard cap and that minimum. *)
Theorem position_size_bounds (capital : Q) (risk_percent : option Q) :
  0 <= capital ->
  CoreRules.MIN_POSITION_SIZE
  <= CoreRules.calculate_position_size capital risk_percent /\
  CoreRules.calculate_position_size capital risk_percent
  <= py_max (capital * CoreRules.MAX_RISK_PERCENT) CoreRules.MIN_POSITION_SIZE.
Proof.
  intro Hcap. unfold CoreRules.calculate_position_size. split.
  - apply py_max_ge_r.
  - apply py_max_mono_l.
    set (r := match risk_percent with
              | Some r => r
              | None => CoreRules.MAX_RISK_PERCENT
              end).
    pose proof (py_min_le_r r CoreRules.MAX_RISK_PERCENT) as Hmin.
    rewrite !(Qmult_comm capital).
    now apply Qmult_le_compat_r.
Qed.

Lemma position_size_bounds_witness :
  CoreRules.MIN_POSITION_SIZE
  <= CoreRules.calculate_position_size 5000 (Some (1 # 1000)) /\
  CoreRules.calculate_position_size 5000 (Some (1 # 1000))
  <= py_max (5000 * CoreRules.MAX_RISK_PERCENT) CoreRules.MIN_POSITION_SIZE.
Proof.
  apply (position_size_bounds 5000 (Some (1 # 1000))).
  vm_compute. discriminate.
Defined.

(** X2: below 1000 of capital the size is the 10 USD minimum whatever
    risk percent is requested; below 10 of capital it therefore exceeds
    the capital itself. *)
Theorem position_size_small_account (capital : Q) (risk_percent : option Q) :
  0 <= capital ->
  capital < 1000 ->
  CoreRules.calculate_position_size capital risk_percent
  = CoreRules.MIN_POSITION_SIZE /\
  (capital < 10 ->
   capital < CoreRules.calculate_position_size capital risk_percent).
Proof.
  intros Hpos Hsmall.
  assert (Hsize : CoreRules.calculate_position_size capital risk_percent
                  = CoreRules.MIN_POSITION_SIZE).
  { unfold CoreRules.calculate_position_size.
    set (r := match risk_percent with
              | Some r => r
              | None => CoreRules.MAX_RISK_PERCENT
              end).
    pose proof (py_min_le_r r CoreRules.MAX_RISK_PERCENT) as Hmin.
    assert (Hprod : capital * py_min r CoreRules.MAX_RISK_PERCENT
                    <= capital * CoreRules.MAX_RISK_PERCENT).
    { rewrite !(Qmult_comm capital). now apply Qmult_le_compat_r. }
    unfold py_max.
    case_Qltb (capital * py_min r CoreRules.MAX_RISK_PERCENT)
              CoreRules.MIN_POSITION_SIZE.
    - reflexivity.
    - exfalso. unfold CoreRules.MAX_RISK_PERCENT, CoreRules.MIN_POSITION_SIZE in *.
      lra. }
  split; [exact Hsize|].
  intro Htiny. rewrite Hsize. unfold CoreRules.MIN_POSITION_SIZE. exact Htiny.
Qed.

Lemma position_size_small_account_witness :
  CoreRules.calculate_position_size 5 (Some (1 # 1000))
  = CoreRules.MIN_POSITION_SIZE /\
  5 < CoreRules.calculate_position_size 5 (Some (1 # 1000)).
Proof.
  destruct (position_size_small_account 5 (Some (1 # 1000))) as [Hsize Hmore].
  - vm_compute. discriminate.
  - reflexivity.
  - split; [exact Hsize | apply Hmore; reflexivity].
Defined.

(** X3: leaving the risk percent out gives the same size as requesting
    the hard cap or anything above it. *)
Theorem position_size_default_is_cap (capital risk_percent : Q) :
  CoreRules.MAX_RISK_PERCENT <= risk_percent ->
  CoreRules.calculate_position_size capital (Some risk_percent)
  == CoreRules.calculate_position_size capital None.
Proof.
  intro Hcap. unfold CoreRules.calculate_position_size.
  assert (Hmin : py_min risk_percent CoreRules.MAX_RISK_PERCENT
                 == CoreRules.MAX_RISK_PERCENT).
  { unfold py_min. case_Qltb CoreRules.MAX_RISK_PERCENT risk_percent.
    - reflexivity.
    - now apply Qle_antisym. }
  assert (Hdef : py_min CoreRules.MAX_RISK_PERCENT CoreRules.MAX_RISK_PERCENT
                 = CoreRules.MAX_RISK_PERCENT) by reflexivity.
  rewrite Hdef.
  assert (Hprod : capital * py_min risk_percent CoreRules.MAX_RISK_PERCENT
                  == capital * CoreRules.MAX_RISK_PERCENT)
    by now rewrite Hmin.
  unfold py_max.
  case_Qltb (capital * py_min risk_percent CoreRules.MAX_RISK_PERCENT)
            CoreRules.MIN_POSITION_SIZE;
    case_Qltb (capital * CoreRules.MAX_RISK_PERCENT) CoreRules.MIN_POSITION_SIZE;
    try reflexivity; try exact Hprod; lra.
Qed.

Lemma position_size_default_is_cap_witness :
  CoreRules.calculate_position_size 5000 (Some (2 # 200))
  == CoreRules.calculate_position_size 5000 None.
Proof.
  apply (position_size_default_is_cap 5000 (2 # 200)).
  vm_compute. discriminate.
Defined.

Lemma get_direction_eqb (direction : option string) (d : string) :
  d <> EmptyString ->
  String.eqb (CoreRules.get direction EmptyString) d = true
  <-> direction = Some d.
Proof.
  intro Hd. rewrite String.eqb_eq. destruct direction as [d'|]; cbn.
  - split; [now intros -> | now intros [= ->]].
  - split; [intro H; now symmetry in H | discriminate].
Qed.

(** The flag is true exactly when the five checks hold, and then the
    message is the last one. *)
Lemma validate_flag (params : CoreRules.TradeParams) :
  (fst (CoreRules.validate_core_rules params) = true <-> core_rules_hold params) /\
  (fst (CoreRules.validate_core_rules params) = true ->
   snd (CoreRules.validate_core_rules params) = CoreRules.AllCoreRulesSatisfied).
Proof.
  unfold core_rules_hold, CoreRules.validate_core_rules. cbn zeta.
  set (s := CoreRules.get (CoreRules.sentiment params) 0).
  set (r := CoreRules.get (CoreRules.risk_percent params) 0).
  set (tp := CoreRules.get (CoreRules.take_profit_percent params) 0).
  set (sl := CoreRules.get (CoreRules.stop_loss_percent params) 0).
  pose proof (get_direction_eqb (CoreRules.direction params) "LONG") as Hlong.
  pose proof (get_direction_eqb (CoreRules.direction params) "SHORT") as Hshort.
  case_Qltb (Qabs s) CoreRules.SENTIMENT_MIN_THRESHOLD.
  { split; [split; [discriminate|] | discriminate].
    intros (H & _). exfalso. exact (Qlt_not_le _ _ E H). }
  case_Qltb CoreRules.MAX_RISK_PERCENT r.
  { split; [split; [discriminate|] | discriminate].
    intros (_ & H & _). exfalso. exact (Qlt_not_le _ _ E0 H). }
  case_Qltb (tp * CoreRules.STOP_LOSS_MAX_RATIO) sl.
  { split; [split; [discriminate|] | discriminate].
    intros (_ & _ & H & _). exfalso. exact (Qlt_not_le _ _ E1 H). }
  case_Qltb tp CoreRules.MIN_TAKE_PROFIT_PERCENT.
  { split; [split; [discriminate|] | discriminate].
    intros (_ & _ & _ & H & _). exfalso. exact (Qlt_not_le _ _ E2 H). }
  destruct (String.eqb (CoreRules.get (CoreRules.direction params) EmptyString) "LONG")
    eqn:Elong.
  - assert (Hdir : CoreRules.direction params = Some "LONG"%string)
      by (apply Hlong; [discriminate | reflexivity]).
    case_Qltb s CoreRules.TRADE_LONG_SENTIMENT; cbn [andb].
    + split; [split; [discriminate|] | discriminate].
      intros (_ & _ & _ & _ & H & _). exfalso.
      exact (Qlt_not_le _ _ E3 (H Hdir)).
    + assert (Hns : String.eqb (CoreRules.get (CoreRules.direction params) EmptyString)
                      "SHORT" = false)
        by (rewrite Hdir; reflexivity).
      rewrite Hns. cbn [andb fst snd].
      split; [split; [intros _|reflexivity] | reflexivity].
      repeat split; auto. intro H. rewrite Hdir in H. discriminate H.
  - cbn [andb].
    assert (Hnl : CoreRules.direction params <> Some "LONG"%string).
    { intro H. apply Hlong in H; [congruence | discriminate]. }
    destruct (String.eqb (CoreRules.get (CoreRules.direction params) EmptyString) "SHORT")
      eqn:Eshort.
    + assert (Hdir : CoreRules.direction params = Some "SHORT"%string)
        by (apply Hshort; [discriminate | reflexivity]).
      case_Qltb CoreRules.TRADE_SHORT_SENTIMENT s; cbn [andb fst snd].
      * split; [split; [discriminate|] | discriminate].
        intros (_ & _ & _ & _ & _ & H). exfalso.
        exact (Qlt_not_le _ _ E3 (H Hdir)).
      * split; [split; [intros _|reflexivity] | reflexivity].
        repeat split; auto. intro H. contradiction.
    + cbn [andb fst snd].
      assert (Hns : CoreRules.direction params <> Some "SHORT"%string).
      { intro H. apply Hshort in H; [congruence | discriminate]. }
      split; [split; [intros _|reflexivity] | reflexivity].
      repeat split; auto; intro H; contradiction.
Qed.

(** X4: a proposal is accepted exactly when all five checks hold; an
    accepted proposal carries the message "All core rules satisfied" and
    a rejected one never does. *)
Theorem validate_accepts_iff (params : CoreRules.TradeParams) :
  (fst (CoreRules.validate_core_rules params) = true <-> core_rules_hold params) /\
  (snd (CoreRules.validate_core_rules params) = CoreRules.AllCoreRulesSatisfied
   <-> fst (CoreRules.validate_core_rules params) = true).
Proof.
  destruct (validate_flag params) as [Hiff Hmsg].
  split; [exact Hiff|]. split; [|exact Hmsg].
  unfold CoreRules.validate_core_rules.
  repeat match goal with
         | |- context [if ?c then _ else _] => destruct c
         end; cbn [fst snd]; intro H; try discriminate H; reflexivity.
Qed.

(** A proposal whose sentiment is below 3 in absolute value, or that
    has no sentiment at all, is rejected for its sentiment before any
    other field is looked at. *)
Theorem validate_sentiment_first (params : CoreRules.TradeParams) :
  Qabs (CoreRules.get (CoreRules.sentiment params) 0)
  < CoreRules.SENTIMENT_MIN_THRESHOLD ->
  CoreRules.validate_core_rules params
  = (false,
     CoreRules.SentimentBelowThreshold
       (CoreRules.get (CoreRules.sentiment params) 0)).
Proof.
  intro H. unfold CoreRules.validate_core_rules.
  apply Qltb_lt in H. now rewrite H.
Qed.

Lemma validate_sentiment_first_witness :
  CoreRules.validate_core_rules (with_sentiment None sound_params)
  = (false, CoreRules.SentimentBelowThreshold 0).
Proof.
  apply (validate_sentiment_first (with_sentiment None sound_params)).
  reflexivity.
Defined.

(** X5: the direction check knows only the upper-case 'LONG' and
    'SHORT': with any other direction, such as the engine's lower-case
    'long', the verdict is the one for a proposal without direction. *)
Theorem validate_direction_case_sensitive (params : CoreRules.TradeParams)
    (direction : string) :
  direction <> "LONG"%string ->
  direction <> "SHORT"%string ->
  CoreRules.validate_core_rules (with_direction (Some direction) params)
  = CoreRules.validate_core_rules (with_direction None params).
Proof.
  intros Hl Hs. unfold CoreRules.validate_core_rules. cbn.
  apply String.eqb_neq in Hl, Hs. now rewrite Hl, Hs.
Qed.

Lemma validate_direction_case_sensitive_witness :
  CoreRules.validate_core_rules
    (with_direction (Some "long"%string) (with_sentiment (Some (- (4))) sound_params))
  = CoreRules.validate_core_rules
      (with_direction None (with_sentiment (Some (- (4))) sound_params)) /\
  fst (CoreRules.validate_core_rules
         (with_direction (Some "long"%string)
            (with_sentiment (Some (- (4))) sound_params))) = true.
Proof.
  split; [|reflexivity].
  apply (validate_direction_case_sensitive
           (with_sentiment (Some (- (4))) sound_params) "long");
    discriminate.
Defined.

(** X6: the sentiment range is not enforced: a LONG proposal accepted at
    one sentiment is accepted at every higher one. *)
Theorem validate_long_sentiment_unbounded (params : CoreRules.TradeParams)
    (s s' : Q) :
  CoreRules.direction params = Some "LONG"%string ->
  fst (CoreRules.validate_core_rules (with_sentiment (Some s) params)) = true ->
  s <= s' ->
  fst (CoreRules.validate_core_rules (with_sentiment (Some s') params)) = true.
Proof.
  intros Hdir Hacc Hle.
  apply (proj1 (validate_flag _)) in Hacc.
  apply (proj1 (validate_flag _)).
  unfold core_rules_hold in *. cbn in *.
  destruct Hacc as (Hs & Hr & Hsl & Htp & Hlong & Hshort).
  specialize (Hlong Hdir).
  unfold CoreRules.TRADE_LONG_SENTIMENT, CoreRules.SENTIMENT_MIN_THRESHOLD in *.
  repeat split; auto.
  - rewrite Qabs_pos; lra.
  - intros _. lra.
  - intro H. rewrite Hdir in H. discriminate H.
Qed.

Lemma validate_long_sentiment_unbounded_witness :
  fst (CoreRules.validate_core_rules (with_sentiment (Some 100) sound_params))
  = true.
Proof.
  apply (validate_long_sentiment_unbounded sound_params 4 100).
  - reflexivity.
  - reflexivity.
  - vm_compute. discriminate.
Defined.

(** X7: for an accepted proposal the sizer's clamp is idle: the size is
    capital x the proposal's own risk percent, floored at the minimum. *)
Theorem accepted_risk_is_not_clamped (params : CoreRules.TradeParams)
    (capital risk_percent : Q) :
  fst (CoreRules.validate_core_rules params) = true ->
  CoreRules.risk_percent params = Some risk_percent ->
  CoreRules.calculate_position_size capital (Some risk_percent)
  = py_max (capital * risk_percent) CoreRules.MIN_POSITION_SIZE.
Proof.
  intros Hacc Hrisk.
  apply (proj1 (validate_flag _)) in Hacc.
  destruct Hacc as (_ & Hr & _). rewrite Hrisk in Hr. cbn in Hr.
  unfold CoreRules.calculate_position_size, py_min.
  apply Qltb_ge in Hr. now rewrite Hr.
Qed.

Lemma accepted_risk_is_not_clamped_witness :
  CoreRules.calculate_position_size 200000 (Some (1 # 100))
  = py_max (200000 * (1 # 100)) CoreRules.MIN_POSITION_SIZE.
Proof.
  apply (accepted_risk_is_not_clamped sound_params 200000 (1 # 100));
    reflexivity.
Defined.

(** * Further properties: the simulation loop *)

(** The window is the last rows, at most 50, of the rows before [i]. *)
Lemma prev_window_firstn (frame : list Candle) (i : nat) :
  prev_window frame i = skipn (i - 50) (firstn i frame).
Proof.
  unfold prev_window. rewrite firstn_skipn_comm.
  replace (i - 50 + (i - (i - 50)))%nat with i by lia. reflexivity.
Qed.

Lemma prev_window_prefix (frame frame' : list Candle) (n i : nat) :
  firstn n frame = firstn n frame' ->
  (i <= n)%nat ->
  prev_window frame i = prev_window frame' i.
Proof.
  intros Heq Hle. rewrite !prev_window_firstn.
  assert (H : firstn i frame = firstn i frame').
  { replace i with (Nat.min i n) by lia.
    rewrite <- !firstn_firstn. now rewrite Heq. }
  now rewrite H.
Qed.

Lemma loop_body_prefix rules p frame frame' n i candle self :
  firstn n frame = firstn n frame' ->
  (i <= n)%nat ->
  loop_body rules p frame i candle self = loop_body rules p frame' i candle self.
Proof.
  intros Heq Hle. unfold loop_body.
  now rewrite (prev_window_prefix frame frame' n i Heq Hle).
Qed.

Lemma simulate_prefix rules p frame frame' n candles :
  firstn n frame = firstn n frame' ->
  forall i self,
    (i + List.length candles <= S n)%nat ->
    simulate rules p frame i candles self
    = simulate rules p frame' i candles self.
Proof.
  intro Heq. induction candles as [|c candles IH]; intros i self Hle;
    cbn [simulate].
  - reflexivity.
  - cbn [List.length] in Hle.
    rewrite (loop_body_prefix rules p frame frame' n i c self Heq) by lia.
    apply IH. lia.
Qed.

(** X12: no lookahead.  The engine after the passes over [done] is the
    same whatever candles follow them in the frame; and the window a
    pass hands to the conditions holds at most 50 candles, the last ones
    before the current index. *)
Theorem no_lookahead (rules : StrategyRules) (first : Candle)
    (done todo todo' : list Candle) (self : BacktestEngine) :
  simulate rules (parameters rules) (first :: done ++ todo) 1 done self
  = simulate rules (parameters rules) (first :: done ++ todo') 1 done self /\
  (forall frame i,
     (List.length (prev_window frame i) <= 50)%nat /\
     exists before, firstn i frame = before ++ prev_window frame i).
Proof.
  split.
  - apply (simulate_prefix rules (parameters rules) _ _ (S (List.length done))).
    + cbn [firstn]. f_equal.
      rewrite !firstn_app, !Nat.sub_diag, !firstn_all. reflexivity.
    + lia.
  - intros frame i. rewrite prev_window_firstn. split.
    + rewrite length_skipn, length_firstn. lia.
    + exists (firstn (i - 50) (firstn i frame)).
      now rewrite firstn_skipn.
Qed.

(** The passes of the loop, case by case, with the prices and the
    parameters they use. *)
Lemma loop_body_cases rules p frame i candle self :
  (exists position price,
     current_position self = Some position /\
     loop_body rules p frame i candle self
     = _close_position self (timestamp candle) price) \/
  (exists position,
     current_position self = Some position /\
     loop_body rules p frame i candle self = update_equity_curve self candle) \/
  (current_position self = None /\
   loop_body rules p frame i candle self
   = update_equity_curve
       (_open_position self (timestamp candle) (close candle)
          (p_position_size_percent p) (p_direction p)) candle) \/
  (current_position self = None /\
   loop_body rules p frame i candle self = update_equity_curve self candle).
Proof.
  unfold loop_body, check_exit.
  destruct (current_position self) as [position|] eqn:Hpos.
  - destruct (String.eqb (p_direction p) "long").
    + destruct (Qle_bool (low candle) _).
      * left. now exists position, (Trade.entry_price position
                                    * (1 - p_stop_loss_percent p / 100)).
      * destruct (Qle_bool _ (high candle)).
        -- left. now exists position, (Trade.entry_price position
                                       * (1 + p_take_profit_percent p / 100)).
        -- destruct (_check_exit_conditions candle _ rules).
           ++ left. now exists position, (close candle).
           ++ right. left. now exists position.
    + destruct (_check_exit_conditions candle _ rules).
      * left. now exists position, (close candle).
      * right. left. now exists position.
  - destruct (_check_entry_conditions candle _ rules).
    + right. right. left. now split.
    + right. right. right. now split.
Qed.

Lemma loop_body_preserves P rules p frame i candle self :
  Preserved P -> P self -> P (loop_body rules p frame i candle self).
Proof.
  intros (Hclose & Hequity & Hopen) HP.
  destruct (loop_body_cases rules p frame i candle self)
    as [(position & price & _ & ->) | [(position & _ & ->) | [[_ ->] | [_ ->]]]];
    auto.
Qed.

Lemma simulate_preserves P rules p frame candles :
  Preserved P ->
  forall i self, P self -> P (simulate rules p frame i candles self).
Proof.
  intro HP. induction candles as [|c candles IH]; intros i self Hself;
    cbn [simulate]; [exact Hself|].
  apply IH. now apply loop_body_preserves.
Qed.

Lemma run_preserves P self rules first rest :
  Preserved P ->
  P (at_start self rules) ->
  P (run self rules first rest).
Proof.
  intros HP Hstart. rewrite run_after_loop. unfold close_at_end, after_loop.
  pose proof (simulate_preserves P rules (parameters rules) (first :: rest) rest
                HP 1%nat _ Hstart) as Hloop.
  destruct (current_position _); [|exact Hloop].
  destruct HP as (Hclose & _). now apply Hclose.
Qed.

Lemma close_position_fields self ts price :
  initial_capital (_close_position self ts price) = initial_capital self /\
  data (_close_position self ts price) = data self /\
  equity_curve (_close_position self ts price) = equity_curve self.
Proof.
  unfold _close_position. destruct (current_position self); repeat split.
Qed.

Lemma run_keeps_frame self rules first rest :
  data (run self rules first rest) = data self /\
  initial_capital (run self rules first rest) = initial_capital self.
Proof.
  apply (run_preserves
           (fun e => data e = data self /\ initial_capital e = initial_capital self)).
  - split; [|split].
    + intros e ts price [Hd Hi].
      destruct (close_position_fields e ts price) as (Hi' & Hd' & _).
      now rewrite Hi', Hd'.
    + intros e candle H. exact H.
    + intros e ts price percent direction H. exact H.
  - split; reflexivity.
Qed.

Ltac same_but_log_start a b H :=
  destruct a, b; unfold same_but_log in H; cbn in H;
  destruct H as (? & ? & ? & ? & ? & ?); subst.

Lemma loop_body_same_but_log rules p frame i candle a b :
  same_but_log a b ->
  same_but_log (loop_body rules p frame i candle a)
               (loop_body rules p frame i candle b).
Proof.
  intro H. same_but_log_start a b H.
  unfold loop_body, check_exit, _close_position, update_equity_curve,
    _open_position, logger, same_but_log.
  cbn.
  destruct current_position1 as [position|].
  - repeat match goal with
           | |- context [if ?c then _ else _] => destruct c
           end; cbn; repeat split.
  - destruct (_check_entry_conditions candle (prev_window frame i) rules);
      cbn; repeat split.
Qed.

Lemma simulate_same_but_log rules p frame candles :
  forall i a b,
    same_but_log a b ->
    same_but_log (simulate rules p frame i candles a)
                 (simulate rules p frame i candles b).
Proof.
  induction candles as [|c candles IH]; intros i a b H; cbn [simulate].
  - exact H.
  - apply IH. now apply loop_body_same_but_log.
Qed.

Lemma close_at_end_same_but_log frame first a b :
  same_but_log a b ->
  same_but_log (close_at_end frame first a) (close_at_end frame first b).
Proof.
  intro H. same_but_log_start a b H.
  unfold close_at_end, _close_position, logger, same_but_log. cbn.
  destruct current_position1; cbn; repeat split.
Qed.

Lemma run_same_but_log a b rules first rest :
  initial_capital a = initial_capital b ->
  data a = data b ->
  same_but_log (run a rules first rest) (run b rules first rest).
Proof.
  intros Hi Hd. unfold run.
  apply close_at_end_same_but_log, simulate_same_but_log.
  unfold same_but_log. cbn. now rewrite Hi, Hd.
Qed.

Lemma calculate_results_same_but_log a b :
  same_but_log a b -> _calculate_results a = _calculate_results b.
Proof.
  intro H. same_but_log_start a b H. reflexivity.
Qed.

Lemma outcome_of_frame (a b : BacktestEngine) (rules : StrategyRules) :
  initial_capital a = initial_capital b ->
  data a = data b ->
  fst (execute_strategy a rules) = fst (execute_strategy b rules).
Proof.
  intros Hi Hd. unfold execute_strategy. rewrite Hd.
  destruct (data b) as [[|first rest]|] eqn:Hb; try reflexivity.
  cbn [fst]. apply calculate_results_same_but_log.
  apply run_same_but_log; [exact Hi | now rewrite Hb].
Qed.

(** X13: what a call returns depends on the engine only through its
    initial capital and its loaded frame: the capital, trades, equity
    curve and position left by earlier calls play no part; and on a
    non-empty frame the two engines end up the same but for the log. *)
Theorem outcome_ignores_earlier_state (a b : BacktestEngine)
    (rules : StrategyRules) :
  initial_capital a = initial_capital b ->
  data a = data b ->
  fst (execute_strategy a rules) = fst (execute_strategy b rules) /\
  (forall first rest,
     data b = Some (first :: rest) ->
     same_but_log (snd (execute_strategy a rules))
                  (snd (execute_strategy b rules))).
Proof.
  intros Hi Hd. split; [now apply outcome_of_frame|].
  intros first rest Hb.
  rewrite (execute_strategy_loaded a rules first rest) by congruence.
  rewrite (execute_strategy_loaded b rules first rest Hb).
  cbn [snd]. now apply run_same_but_log.
Qed.

Lemma outcome_ignores_earlier_state_witness :
  fst (execute_strategy
         (snd (execute_strategy
                 (engine_with [candle_before; candle_t0; candle_t1]) short_rules))
         long_rules)
  = fst (execute_strategy
           (engine_with [candle_before; candle_t0; candle_t1]) long_rules).
Proof.
  apply (outcome_ignores_earlier_state
           (snd (execute_strategy
                   (engine_with [candle_before; candle_t0; candle_t1])
                   short_rules))
           (engine_with [candle_before; candle_t0; candle_t1]) long_rules);
    vm_compute; reflexivity.
Defined.

Lemma execute_strategy_keeps_frame self rules :
  data (snd (execute_strategy self rules)) = data self /\
  initial_capital (snd (execute_strategy self rules)) = initial_capital self.
Proof.
  unfold execute_strategy.
  destruct (data self) as [[|first rest]|] eqn:Hdata; cbn [snd].
  - split; [exact Hdata | reflexivity].
  - destruct (run_keeps_frame self rules first rest) as [Hd Hi].
    split; [now rewrite Hd | exact Hi].
  - split; [exact Hdata | reflexivity].
Qed.

(** X14: a call leaves nothing behind that changes a later one: running
    any rules first and then the rules at hand returns what running the
    rules at hand at once returns; in particular a repeated run repeats
    its outcome. *)
Theorem rerun_gives_same_outcome (self : BacktestEngine)
    (earlier rules : StrategyRules) :
  fst (execute_strategy (snd (execute_strategy self earlier)) rules)
  = fst (execute_strategy self rules).
Proof.
  destruct (execute_strategy_keeps_frame self earlier) as [Hd Hi].
  now apply outcome_of_frame.
Qed.

(** X15: when a frame is refused for a missing column, the frame loaded
    before stays in place and the next run returns what it would have
    returned without the refused load. *)
Theorem refused_load_changes_no_outcome (self : BacktestEngine) (df : DataFrame)
    (col : string) (rules : StrategyRules) :
  In col required_columns ->
  has_column df col = false ->
  fst (load_data self df) = false /\
  fst (execute_strategy (snd (load_data self df)) rules)
  = fst (execute_strategy self rules).
Proof.
  intros Hin Hcol.
  destruct (load_data_missing_column self df col Hin Hcol) as [Hflag Hdata].
  split; [exact Hflag|].
  apply outcome_of_frame; [|exact Hdata].
  unfold load_data.
  destruct (filter _ required_columns); reflexivity.
Qed.

Lemma refused_load_changes_no_outcome_witness :
  fst (load_data (engine_with [candle_t0; candle_t1])
         (mkFrame ["timestamp"; "open"; "high"; "low"; "close"]%string
            [candle_before])) = false /\
  fst (execute_strategy
         (snd (load_data (engine_with [candle_t0; candle_t1])
                 (mkFrame ["timestamp"; "open"; "high"; "low"; "close"]%string
                    [candle_before])))
         long_rules)
  = fst (execute_strategy (engine_with [candle_t0; candle_t1]) long_rules).
Proof.
  apply (refused_load_changes_no_outcome _ _ "volume").
  - cbn. tauto.
  - reflexivity.
Defined.

(** * Further properties: load_data *)

Lemma strictly_increasing_sorted (l : list Candle) :
  strictly_increasing (map timestamp l) = true ->
  StronglySorted (fun a b => (timestamp a < timestamp b)%Z) l.
Proof.
  induction l as [|a l IH]; intro H; [constructor|].
  destruct l as [|b l].
  - constructor; constructor.
  - cbn in H. apply andb_true_iff in H. destruct H as [Hab Hrest].
    apply Z.ltb_lt in Hab. specialize (IH Hrest).
    constructor; [exact IH|].
    constructor; [exact Hab|].
    inversion IH as [|? ? _ Hall]; subst.
    eapply Forall_impl; [|exact Hall]. cbn. intros c Hc. lia.
Qed.

Lemma sorted_permutation_unique (l l' : list Candle) :
  StronglySorted (fun a b => (timestamp a < timestamp b)%Z) l ->
  StronglySorted (fun a b => (timestamp a <= timestamp b)%Z) l' ->
  Permutation l l' ->
  l' = l.
Proof.
  revert l'. induction l as [|a l IH]; intros l' Hl Hl' Hperm.
  - now apply Permutation_nil in Hperm.
  - destruct l' as [|b l'].
    + apply Permutation_sym, Permutation_nil in Hperm. discriminate.
    + inversion Hl as [|? ? Hl_tail Hl_head]; subst.
      inversion Hl' as [|? ? Hl'_tail Hl'_head]; subst.
      assert (Hab : b = a).
      { assert (Hb : In b (a :: l))
          by (eapply Permutation_in;
              [apply Permutation_sym; exact Hperm | now left]).
        assert (Ha : In a (b :: l'))
          by (eapply Permutation_in; [exact Hperm | now left]).
        destruct Hb as [Hb | Hb]; [now symmetry|].
        destruct Ha as [Ha | Ha]; [exact Ha|].
        rewrite Forall_forall in Hl_head, Hl'_head.
        specialize (Hl_head b Hb). specialize (Hl'_head a Ha). lia. }
      subst b. f_equal. apply IH; try assumption.
      now apply Permutation_cons_inv with a.
Qed.

Lemma load_data_accepted (self : BacktestEngine) (df : DataFrame) :
  (forall col, In col required_columns -> has_column df col = true) ->
  fst (load_data self df) = true /\
  data (snd (load_data self df)) = Some (sort_values (rows df)).
Proof.
  intro Hall. unfold load_data. rewrite (no_column_missing df Hall).
  split; reflexivity.
Qed.

Lemma sort_values_sorted (l : list Candle) :
  StronglySorted (fun a b => (timestamp a <= timestamp b)%Z) (sort_values l).
Proof.
  assert (Htrans : Relations_1.Transitive
                     (fun a b => is_true (TimestampOrder.leb a b))).
  { intros a b c Hab Hbc. unfold is_true, TimestampOrder.leb in *.
    apply Z.leb_le in Hab, Hbc. apply Z.leb_le. lia. }
  pose proof (TimestampSort.StronglySorted_sort l Htrans) as Hs.
  unfold sort_values.
  induction Hs as [|a l' Hs IH Hall]; constructor; [exact IH|].
  eapply Forall_impl; [|exact Hall].
  intros b Hb. unfold is_true, TimestampOrder.leb in Hb.
  now apply Z.leb_le in Hb.
Qed.

(** X16: a frame with the required columns whose timestamps are strictly
    increasing is ingested as it is, row for row. *)
Theorem load_data_keeps_ordered_series (self : BacktestEngine) (df : DataFrame) :
  (forall col, In col required_columns -> has_column df col = true) ->
  strictly_increasing (map timestamp (rows df)) = true ->
  fst (load_data self df) = true /\
  data (snd (load_data self df)) = Some (rows df).
Proof.
  intros Hcols Hinc.
  destruct (load_data_accepted self df Hcols) as (Hflag & Hdata).
  split; [exact Hflag|]. rewrite Hdata. f_equal.
  apply sorted_permutation_unique.
  - now apply strictly_increasing_sorted.
  - apply sort_values_sorted.
  - apply TimestampSort.Permuted_sort.
Qed.

Lemma load_data_keeps_ordered_series_witness :
  fst (load_data (init 10000) (frame_of [candle_before; candle_t0; candle_t1]))
  = true /\
  data (snd (load_data (init 10000)
               (frame_of [candle_before; candle_t0; candle_t1])))
  = Some [candle_before; candle_t0; candle_t1].
Proof.
  apply (load_data_keeps_ordered_series (init 10000)
           (frame_of [candle_before; candle_t0; candle_t1])).
  - intros col Hin. cbn in Hin.
    repeat (destruct Hin as [<- | Hin]; [reflexivity|]).
    destruct Hin.
  - reflexivity.
Defined.

(** * Further properties: runs that do or do not trade *)

Lemma simulate_invariant (P : BacktestEngine -> Prop) (S : Candle -> Prop)
    rules p frame candles :
  (forall i c self, S c -> P self -> P (loop_body rules p frame i c self)) ->
  Forall S candles ->
  forall i self, P self -> P (simulate rules p frame i candles self).
Proof.
  intros Hstep Hall. induction Hall as [|c candles Hc Hall IH];
    intros i self Hself; cbn [simulate]; [exact Hself|].
  apply IH. now apply Hstep.
Qed.

(** While no position is open and the entry condition stays false on the
    windows the loop visits, a stretch of passes only extends the equity
    curve by the unchanged capital. *)
Lemma simulate_idle rules p frame candles :
  forall i self,
    current_position self = None ->
    (forall j c,
       (i <= j < i + List.length candles)%nat ->
       _check_entry_conditions c (prev_window frame j) rules = false) ->
    simulate rules p frame i candles self
    = {| initial_capital := initial_capital self;
         capital := capital self;
         trades := trades self;
         equity_curve :=
           equity_curve self ++ repeat (capital self) (List.length candles);
         current_position := None;
         data := data self;
         log := log self |}.
Proof.
  induction candles as [|c candles IH]; intros i self Hpos Hentry;
    cbn [simulate List.length repeat].
  - destruct self; cbn in *. subst. now rewrite app_nil_r.
  - cbn [List.length] in Hentry.
    assert (Hbody : loop_body rules p frame i c self
                    = update_equity_curve self c).
    { unfold loop_body. rewrite Hpos, (Hentry i c) by lia. reflexivity. }
    rewrite Hbody, IH.
    + unfold update_equity_curve. rewrite Hpos. cbn.
      now rewrite <- app_assoc.
    + unfold update_equity_curve. now rewrite Hpos.
    + intros j c' Hj. apply Hentry. lia.
Qed.

Lemma run_idle self rules first rest :
  (forall j c,
     (1 <= j <= List.length rest)%nat ->
     _check_entry_conditions c (prev_window (first :: rest) j) rules = false) ->
  run self rules first rest
  = {| initial_capital := initial_capital self;
       capital := initial_capital self;
       trades := [];
       equity_curve :=
         repeat (initial_capital self) (List.length (first :: rest));
       current_position := None;
       data := data self;
       log := log self ++ [Backtesting (get (name rules) "Unknown"%string)] |}.
Proof.
  intro Hentry. unfold run.
  rewrite simulate_idle; [reflexivity | reflexivity |].
  intros j c Hj. apply Hentry. lia.
Qed.

(** X17: on a frame of a single candle, or when the entry condition
    never fires, a run reports 'No trades executed' with a trade count
    of 0; the capital stays the initial capital and the equity curve is
    flat at it, one entry per candle of the frame. *)
Theorem no_entry_no_trades (self : BacktestEngine) (rules : StrategyRules)
    (first : Candle) (rest : list Candle) :
  data self = Some (first :: rest) ->
  rest = [] \/
  (forall candle history, _check_entry_conditions candle history rules = false) ->
  let final := snd (execute_strategy self rules) in
  fst (execute_strategy self rules)
  = ErrorDict (Some 0%nat) "No trades executed" /\
  trades final = [] /\
  current_position final = None /\
  capital final = initial_capital self /\
  equity_curve final
  = repeat (initial_capital self) (List.length (first :: rest)).
Proof.
  intros Hdata Hidle. cbn zeta.
  rewrite (execute_strategy_loaded self rules first rest Hdata). cbn [fst snd].
  rewrite run_idle.
  - repeat split.
  - intros j c Hj. destruct Hidle as [-> | Hnever].
    + cbn in Hj. lia.
    + apply Hnever.
Qed.

Lemma no_entry_no_trades_witness :
  let self := engine_with [candle_before; candle_t0; candle_t1] in
  let rules := with_entry_conditions (Some never_true) long_rules in
  fst (execute_strategy self rules)
  = ErrorDict (Some 0%nat) "No trades executed" /\
  equity_curve (snd (execute_strategy self rules)) = [10000; 10000; 10000].
Proof.
  cbn zeta.
  destruct (no_entry_no_trades
              (engine_with [candle_before; candle_t0; candle_t1])
              (with_entry_conditions (Some never_true) long_rules)
              candle_before [candle_t0; candle_t1] eq_refl)
    as (Hout & _ & _ & _ & Hcurve).
  - right. reflexivity.
  - split; [exact Hout | exact Hcurve].
Defined.

Lemma close_position_first_entry time price self ts exit :
  first_entry time price self ->
  first_entry time price (_close_position self ts exit).
Proof.
  unfold first_entry, _close_position. intro H.
  destruct (trades self) as [|trade others] eqn:Htrades.
  - destruct H as (position & Hpos & Htime & Hprice).
    rewrite Hpos. cbn. try rewrite Htrades. cbn.
    unfold Trade.close. cbn. now split.
  - destruct (current_position self); cbn; try rewrite Htrades; exact H.
Qed.

Lemma loop_body_first_entry time price rules p frame i candle self :
  first_entry time price self ->
  first_entry time price (loop_body rules p frame i candle self).
Proof.
  intro H.
  destruct (loop_body_cases rules p frame i candle self)
    as [(position & exit & _ & ->) | [(position & _ & ->) | [[Hpos ->] | [_ ->]]]].
  - now apply close_position_first_entry.
  - exact H.
  - unfold first_entry in *. cbn.
    destruct (trades self); [|exact H].
    destruct H as (position & Hopen & _). congruence.
  - exact H.
Qed.

(** X18: rules without entry conditions enter at once.  On a frame of
    at least two candles the run returns a report, and its first trade
    was entered at the second candle, at that candle's close. *)
Theorem no_entry_conditions_trade_at_once (self : BacktestEngine)
    (rules : StrategyRules) (first second : Candle) (rest : list Candle) :
  data self = Some (first :: second :: rest) ->
  entry_conditions rules = None \/
  entry_conditions rules = Some (Declarative no_conditions) ->
  exists results trade others,
    fst (execute_strategy self rules) = Report results /\
    Results.trades results = trade :: others /\
    Trade.entry_time trade = timestamp second /\
    Trade.entry_price trade = close second.
Proof.
  intros Hdata Hentry.
  rewrite (execute_strategy_loaded self rules first (second :: rest) Hdata).
  cbn [fst].
  assert (Hfirst : first_entry (timestamp second) (close second)
                     (run self rules first (second :: rest))).
  { rewrite run_after_loop. unfold after_loop. cbn [simulate].
    assert (Hopen : first_entry (timestamp second) (close second)
                      (loop_body rules (parameters rules)
                         (first :: second :: rest) 1 second
                         (at_start self rules))).
    { unfold loop_body, _check_entry_conditions. cbn [current_position at_start reset].
      destruct Hentry as [-> | ->]; cbn;
        (eexists; split; [reflexivity | split; reflexivity]). }
    set (opened := loop_body _ _ _ 1%nat second _) in *.
    assert (Hloop : first_entry (timestamp second) (close second)
                      (simulate rules (parameters rules)
                         (first :: second :: rest) 2 rest opened)).
    { apply (simulate_invariant _ (fun _ => True)).
      - intros i c e _. apply loop_body_first_entry.
      - apply Forall_forall. intros; exact I.
      - exact Hopen. }
    unfold close_at_end.
    destruct (current_position (simulate _ _ _ 2%nat rest opened));
      [now apply close_position_first_entry|].
    exact Hloop. }
  unfold first_entry in Hfirst. unfold _calculate_results.
  destruct (trades (run self rules first (second :: rest)))
    as [|trade others] eqn:Htrades.
  - exfalso. destruct Hfirst as (position & Hpos & _).
    destruct (run_summary self rules first (second :: rest)) as (Hnone & _).
    cbn zeta in Hnone. congruence.
  - eexists _, trade, others. split; [reflexivity|].
    cbn [Results.trades]. split; [reflexivity | exact Hfirst].
Qed.

Lemma no_entry_conditions_trade_at_once_witness :
  exists results trade others,
    fst (execute_strategy (engine_with [candle_t0; candle_t1]) empty_rules)
    = Report results /\
    Results.trades results = trade :: others /\
    Trade.entry_time trade = timestamp candle_t1 /\
    Trade.entry_price trade = close candle_t1.
Proof.
  apply (no_entry_conditions_trade_at_once
           (engine_with [candle_t0; candle_t1]) empty_rules
           candle_t0 candle_t1 [] eq_refl).
  left. reflexivity.
Defined.

(** * Further properties: the trade history *)

Lemma close_position_wellformed first rest direction self candle price :
  In candle (first :: rest) ->
  history_wellformed first rest direction self ->
  history_wellformed first rest direction
    (_close_position self (timestamp candle) price).
Proof.
  intros Hin [Htrades Hopen]. unfold _close_position.
  destruct (current_position self) as [position|] eqn:Hpos;
    [|split; [exact Htrades | now rewrite Hpos]].
  destruct (Hopen position eq_refl) as [Hentered _].
  split; cbn; [|discriminate].
  apply Forall_app. split; [exact Htrades|].
  constructor; [|constructor]. split.
  - exact Hentered.
  - unfold exited_at, Trade.close. cbn.
    split; [reflexivity | split; [discriminate|]].
    now exists candle.
Qed.

Lemma loop_body_wellformed first rest rules i candle self :
  In candle rest ->
  history_wellformed first rest (p_direction (parameters rules)) self ->
  history_wellformed first rest (p_direction (parameters rules))
    (loop_body rules (parameters rules) (first :: rest) i candle self).
Proof.
  intros Hin Hwf.
  destruct (loop_body_cases rules (parameters rules) (first :: rest) i candle self)
    as [(position & price & _ & ->) | [(position & _ & ->) | [[Hpos ->] | [_ ->]]]].
  - apply close_position_wellformed; [now right | exact Hwf].
  - exact Hwf.
  - destruct Hwf as [Htrades _]. split; [exact Htrades|].
    cbn. intros position [= <-]. unfold entered_at, Trade.init. cbn.
    split; [split; [reflexivity|] | reflexivity].
    now exists candle.
  - exact Hwf.
Qed.

(** X19: after a run every trade of the history is closed, has the
    direction of the rules ('long' when they name none), was entered at
    the time and close price of a candle after the first, and left at the
    time of a candle of the frame. *)
Theorem trade_history_wellformed (self : BacktestEngine) (rules : StrategyRules)
    (first : Candle) (rest : list Candle) :
  data self = Some (first :: rest) ->
  Forall (fun trade =>
            entered_at rest (get (direction rules) "long"%string) trade /\
            exited_at (first :: rest) trade)
         (trades (snd (execute_strategy self rules))).
Proof.
  intro Hdata.
  rewrite (execute_strategy_loaded self rules first rest Hdata). cbn [snd].
  assert (Hloop : history_wellformed first rest (p_direction (parameters rules))
                    (after_loop self rules first rest)).
  { unfold after_loop.
    apply (simulate_invariant _ (fun c => In c rest)).
    - intros i c e Hin. now apply loop_body_wellformed.
    - apply Forall_forall. auto.
    - split; [constructor | discriminate]. }
  rewrite run_after_loop. unfold close_at_end.
  destruct (current_position (after_loop self rules first rest)) eqn:Hpos;
    [|exact (proj1 Hloop)].
  refine (proj1 (close_position_wellformed first rest _ _
                   (last (first :: rest) first) _ _ Hloop)).
  destruct rest as [|second rest']; [now left|].
  right. change (last (first :: second :: rest') first)
           with (last (second :: rest') first).
  clear. revert second. induction rest' as [|third rest' IH]; intro second.
  - now left.
  - right. apply IH.
Qed.

Lemma trade_history_wellformed_witness :
  Forall (fun trade =>
            entered_at [candle_t0; candle_t1] "long" trade /\
            exited_at [candle_before; candle_t0; candle_t1] trade)
         (trades (snd (execute_strategy
                         (engine_with [candle_before; candle_t0; candle_t1])
                         long_rules))).
Proof.
  exact (trade_history_wellformed
           (engine_with [candle_before; candle_t0; candle_t1]) long_rules
           candle_before [candle_t0; candle_t1] eq_refl).
Defined.

Lemma Activity_trans n m a b c :
  Activity n a b -> Activity m b c -> Activity (n + m) a c.
Proof.
  intros (r1 & Hl1 & Hn1 & Ht1) (r2 & Hl2 & Hn2 & Ht2).
  exists (r1 ++ r2). repeat split.
  - rewrite Hl2, Hl1. now rewrite app_assoc.
  - rewrite count_opened_app, count_closed_app. lia.
  - rewrite count_closed_app. lia.
Qed.

Lemma loop_body_Activity rules p frame i candle self :
  Activity 1 self (loop_body rules p frame i candle self).
Proof.
  destruct (loop_body_cases rules p frame i candle self)
    as [(position & price & Hpos & ->) | [(position & _ & ->) | [[_ ->] | [_ ->]]]].
  - unfold _close_position. rewrite Hpos. eexists [Closed _ _].
    cbn. rewrite length_app. cbn. repeat split; lia.
  - exists []. cbn. rewrite app_nil_r. repeat split; lia.
  - eexists [Opened _ _ _]. cbn. repeat split; lia.
  - exists []. cbn. rewrite app_nil_r. repeat split; lia.
Qed.

Lemma simulate_Activity rules p frame candles :
  forall i self,
    Activity (List.length candles) self (simulate rules p frame i candles self).
Proof.
  induction candles as [|c candles IH]; intros i self; cbn [simulate List.length].
  - exists []. cbn. rewrite app_nil_r. repeat split; lia.
  - change (S (List.length candles)) with (1 + List.length candles)%nat.
    eapply Activity_trans; [apply loop_body_Activity | apply IH].
Qed.

(** X20: a trade takes a pass to open and a later pass to close, the
    forced close apart: a run over N candles ends with at most N / 2
    trades. *)
Theorem trade_count_bound (self : BacktestEngine) (rules : StrategyRules)
    (first : Candle) (rest : list Candle) :
  data self = Some (first :: rest) ->
  (2 * List.length (trades (snd (execute_strategy self rules)))
   <= List.length (first :: rest))%nat.
Proof.
  intro Hdata.
  rewrite (execute_strategy_loaded self rules first rest Hdata). cbn [snd].
  rewrite run_after_loop.
  destruct (after_loop_Progress self rules first rest)
    as [_ (records & Hlog & _ & Hopened & _)].
  destruct (simulate_Activity rules (parameters rules) (first :: rest) rest
              1%nat (at_start self rules))
    as (records' & Hlog' & Hsteps & Hclosed).
  fold (after_loop self rules first rest) in Hlog', Hclosed.
  assert (Hsame : records' = records).
  { rewrite Hlog in Hlog'. now apply app_inv_head in Hlog'. }
  subst records'. cbn in Hopened, Hclosed.
  pose proof (close_at_end_spec (first :: rest) first
                (after_loop self rules first rest)) as (_ & _ & _ & _ & Hend).
  unfold is_open in Hopened.
  destruct (current_position (after_loop self rules first rest)) as [position|].
  - destruct Hend as [Htrades _]. rewrite Htrades, length_app.
    cbn in *. lia.
  - rewrite Hend. cbn in *. lia.
Qed.

Lemma trade_count_bound_witness :
  (2 * List.length
         (trades (snd (execute_strategy
                         (engine_with [candle_before; candle_t0; candle_t1])
                         long_rules)))
   <= 3)%nat.
Proof.
  exact (trade_count_bound
           (engine_with [candle_before; candle_t0; candle_t1]) long_rules
           candle_before [candle_t0; candle_t1] eq_refl).
Defined.

Lemma close_chronological (position : Trade.t) (exit_time : Z) (price : Q) :
  (Trade.entry_time position <= exit_time)%Z ->
  chronological (Trade.close position exit_time price).
Proof.
  intro Hle. unfold chronological, Trade.close. cbn.
  eexists _, _. repeat split; [exact Hle|].
  unfold Qle, Qdiv, Qmult, Qinv, inject_Z. cbn. lia.
Qed.

Lemma sorted_last_is_latest (l : list Candle) (d : Candle) :
  StronglySorted (fun a b => (timestamp a <= timestamp b)%Z) l ->
  Forall (fun c => (timestamp c <= timestamp (last l d))%Z) l.
Proof.
  induction 1 as [|a l Hsorted IH Hhead]; [constructor|].
  destruct l as [|b l].
  - constructor; [cbn; lia | constructor].
  - change (last (a :: b :: l) d) with (last (b :: l) d).
    constructor; [|exact IH].
    inversion Hhead as [|? ? Hab _]; subst.
    inversion IH as [|? ? Hb _]; subst. lia.
Qed.

Lemma simulate_chronological rules p frame (latest : Z) candles :
  StronglySorted (fun a b => (timestamp a <= timestamp b)%Z) candles ->
  Forall (fun c => (timestamp c <= latest)%Z) candles ->
  forall i self,
    Forall chronological (trades self) ->
    (forall position,
       current_position self = Some position ->
       (Trade.entry_time position <= latest)%Z /\
       Forall (fun c => (Trade.entry_time position <= timestamp c)%Z) candles) ->
    Forall chronological (trades (simulate rules p frame i candles self)) /\
    (forall position,
       current_position (simulate rules p frame i candles self) = Some position ->
       (Trade.entry_time position <= latest)%Z).
Proof.
  intros Hsorted. induction Hsorted as [|c candles Hsorted IH Hhead];
    intros Hlatest i self Htrades Hopen; cbn [simulate].
  - split; [exact Htrades|]. intros position Hpos. now apply Hopen.
  - inversion Hlatest as [|? ? Hc Hlatest']; subst.
    destruct (loop_body_cases rules p frame i c self)
      as [(position & price & Hpos & ->) | [(position & Hpos & ->)
          | [[Hpos ->] | [Hpos ->]]]];
      apply (IH Hlatest').
    + unfold _close_position. rewrite Hpos. cbn.
      apply Forall_app. split; [exact Htrades|].
      constructor; [|constructor]. apply close_chronological.
      destruct (Hopen position Hpos) as [_ Hall].
      now inversion Hall.
    + unfold _close_position. rewrite Hpos. cbn. discriminate.
    + exact Htrades.
    + cbn. intros position' Hpos'.
      destruct (Hopen position' Hpos') as [Hl Hall].
      split; [exact Hl | now inversion Hall].
    + exact Htrades.
    + cbn. intros position [= <-]. cbn. split; [exact Hc|].
      exact Hhead.
    + exact Htrades.
    + cbn. rewrite Hpos. discriminate.
Qed.

Lemma run_chronological self rules first rest :
  StronglySorted (fun a b => (timestamp a <= timestamp b)%Z) (first :: rest) ->
  Forall chronological (trades (run self rules first rest)).
Proof.
  intro Hsorted.
  pose proof (sorted_last_is_latest (first :: rest) first Hsorted) as Hlatest.
  inversion Hsorted as [|? ? Hrest _]; subst.
  inversion Hlatest as [|? ? _ Hlatest_rest]; subst.
  destruct (simulate_chronological rules (parameters rules) (first :: rest)
              (timestamp (last (first :: rest) first)) rest Hrest Hlatest_rest
              1%nat (at_start self rules))
    as [Htrades Hopen].
  - constructor.
  - discriminate.
  - rewrite run_after_loop. unfold close_at_end.
    fold (after_loop self rules first rest) in Htrades, Hopen.
    destruct (current_position (after_loop self rules first rest))
      as [position|] eqn:Hpos; [|exact Htrades].
    unfold _close_position. rewrite Hpos. cbn.
    apply Forall_app. split; [exact Htrades|].
    constructor; [|constructor].
    apply close_chronological. now apply Hopen.
Qed.

(** X21: on a frame that [load_data] accepted, every trade of a run
    leaves no earlier than it entered, so that its duration is a
    non-negative number of hours. *)
Theorem trades_are_chronological (engine : BacktestEngine) (df : DataFrame)
    (rules : StrategyRules) :
  (forall col, In col required_columns -> has_column df col = true) ->
  rows df <> [] ->
  Forall chronological
    (trades (snd (execute_strategy (snd (load_data engine df)) rules))).
Proof.
  intros Hcols Hrows.
  destruct (load_data_accepted engine df Hcols) as [_ Hdata].
  pose proof (sort_values_sorted (rows df)) as Hsorted.
  destruct (sort_values (rows df)) as [|first rest] eqn:Hsort.
  - exfalso. apply Hrows.
    apply Permutation_nil. rewrite <- Hsort.
    apply Permutation_sym, TimestampSort.Permuted_sort.
  - rewrite (execute_strategy_loaded _ rules first rest Hdata). cbn [snd].
    now apply run_chronological.
Qed.

Lemma trades_are_chronological_witness :
  Forall chronological
    (trades (snd (execute_strategy
                    (snd (load_data (init 10000)
                            (frame_of [candle_t1; candle_t0; candle_before])))
                    long_rules))).
Proof.
  apply (trades_are_chronological (init 10000)
           (frame_of [candle_t1; candle_t0; candle_before]) long_rules).
  - intros col Hin. cbn in Hin.
    repeat (destruct Hin as [<- | Hin]; [reflexivity|]).
    destruct Hin.
  - discriminate.
Defined.

(** * Further properties: the metrics *)

Lemma py_sum_acc (l : list Q) (a : Q) : fold_left Qplus l a == a + py_sum l.
Proof.
  revert a. induction l as [|x l IH]; intro a; unfold py_sum; cbn.
  - ring.
  - rewrite (IH (a + x)), (IH (0 + x)). ring.
Qed.

Lemma py_sum_cons (x : Q) (l : list Q) : py_sum (x :: l) == x + py_sum l.
Proof.
  unfold py_sum at 1. cbn. rewrite py_sum_acc. ring.
Qed.

Lemma py_sum_nonneg (l : list Q) : Forall (fun x => 0 <= x) l -> 0 <= py_sum l.
Proof.
  induction 1 as [|x l Hx _ IH]; [apply Qle_refl|].
  rewrite py_sum_cons. lra.
Qed.

Lemma Qlen_nonneg {A} (l : list A) : 0 <= Qlen l.
Proof. unfold Qlen, Qle. cbn. lia. Qed.

Lemma Qlen_pos {A} (x : A) (l : list A) : 0 < Qlen (x :: l).
Proof. unfold Qlen, Qlt. cbn. lia. Qed.

(** * Further properties: the RSI indicator *)

Lemma Forall_skipn {A} (P : A -> Prop) (n : nat) (l : list A) :
  Forall P l -> Forall P (skipn n l).
Proof.
  revert l. induction n as [|n IH]; intros l H; [exact H|].
  destruct l as [|x l]; [constructor|].
  cbn. apply IH. now inversion H.
Qed.

Lemma Series_mean_nonneg (s : list Q) :
  Forall (fun x => 0 <= x) s ->
  match Series_mean s with
  | Fin m => 0 <= m
  | NaN => True
  end.
Proof.
  intro H. destruct s as [|x s]; [exact I|].
  unfold Series_mean. apply py_sum_nonneg in H.
  apply Qle_shift_div_l; [apply Qlen_pos | lra].
Qed.

Lemma rolling_mean_last_nonneg (window : nat) (s : list Q) :
  Forall (fun x => 0 <= x) s ->
  match rolling_mean_last window s with
  | Fin m => 0 <= m
  | NaN => True
  end.
Proof.
  intro H. unfold rolling_mean_last.
  destruct (List.length s <? window)%nat; [exact I|].
  now apply Series_mean_nonneg, Forall_skipn.
Qed.

Lemma gains_nonneg (deltas : list Float) :
  Forall (fun x => 0 <= x) (Series_where (fun d => Qltb 0 d) 0 deltas).
Proof.
  unfold Series_where. apply Forall_forall. intros x Hx.
  apply in_map_iff in Hx. destruct Hx as ([|v] & <- & _); [apply Qle_refl|].
  case_Qltb 0 v; [now apply Qlt_le_weak | apply Qle_refl].
Qed.

Lemma losses_nonneg (deltas : list Float) :
  Forall (fun x => 0 <= x)
         (map Qopp (Series_where (fun d => Qltb d 0) 0 deltas)).
Proof.
  unfold Series_where. rewrite map_map. apply Forall_forall. intros x Hx.
  apply in_map_iff in Hx. destruct Hx as ([|v] & <- & _); [discriminate|].
  case_Qltb v 0; [lra | discriminate].
Qed.

Lemma rsi_value_range (gain loss : Q) (value : Q) :
  0 <= gain ->
  0 <= loss ->
  rsi_value (Fin gain) (Fin loss) = Fin value ->
  0 <= value <= 100.
Proof.
  intros Hg Hl. unfold rsi_value.
  destruct (Qeq_bool loss 0) eqn:E.
  - destruct (Qeq_bool gain 0); [discriminate|].
    intros [= <-]. split; discriminate.
  - apply Qeq_bool_neq in E. intros [= <-].
    assert (Hpos : 0 < loss).
    { apply Qle_lteq in Hl. destruct Hl as [Hl | Hl]; [exact Hl|].
      exfalso. apply E. now symmetry. }
    assert (Hratio : 0 <= gain / loss).
    { apply Qle_shift_div_l; [exact Hpos | lra]. }
    assert (H0 : 0 <= 100 / (1 + gain / loss)).
    { apply Qle_shift_div_l; lra. }
    assert (H1 : 100 / (1 + gain / loss) <= 100).
    { apply Qle_shift_div_r; lra. }
    split; lra.
Qed.

(** X27: whenever [_calculate_rsi] yields a number, it lies between 0
    and 100. *)
Theorem rsi_between_0_and_100 (prices : list Q) (period : nat) (value : Q) :
  _calculate_rsi prices period = Some (Fin value) ->
  0 <= value <= 100.
Proof.
  unfold _calculate_rsi.
  destruct (List.length prices <? period + 1)%nat; [discriminate|].
  pose proof (rolling_mean_last_nonneg period _
                (gains_nonneg (Series_diff prices))) as Hgain.
  pose proof (rolling_mean_last_nonneg period _
                (losses_nonneg (Series_diff prices))) as Hloss.
  destruct (rolling_mean_last period
              (Series_where (fun d => Qltb 0 d) 0 (Series_diff prices)))
    as [|gain]; [discriminate|].
  destruct (rolling_mean_last period
              (map Qopp (Series_where (fun d => Qltb d 0) 0 (Series_diff prices))))
    as [|loss]; [discriminate|].
  intros [= H]. now apply (rsi_value_range gain loss).
Qed.

Lemma rsi_between_0_and_100_witness :
  0 <= 100 - 100 / (1 + (13 # 14) / (1 # 14)) <= 100.
Proof.
  apply (rsi_between_0_and_100
           [1; 2; 3; 4; 5; 6; 7; 8; 9; 10; 11; 12; 13; 14; 13] 14).
  vm_compute. reflexivity.
Defined.

Lemma rsi_needs_history (prices : list Q) :
  (List.length prices < 15)%nat -> _calculate_rsi prices 14 = None.
Proof.
  intro H. unfold _calculate_rsi.
  apply Nat.ltb_lt in H. cbn [Nat.add]. now rewrite H.
Qed.

Lemma prev_window_length (frame : list Candle) (i : nat) :
  (List.length (prev_window frame i) <= i)%nat.
Proof.
  rewrite prev_window_firstn, length_skipn, length_firstn. lia.
Qed.

(** X28: an RSI entry rule needs fifteen candles of history.  With an
    ['rsi_below'] entry condition, no entry is taken on a history of
    fewer than fifteen candles, and a run on a frame of at most fifteen
    candles reports 'No trades executed'. *)
Theorem rsi_entry_needs_history (self : BacktestEngine) (rules : StrategyRules)
    (conditions : ConditionDict) (threshold : Q)
    (first : Candle) (rest : list Candle) :
  entry_conditions rules = Some (Declarative conditions) ->
  rsi_below conditions = Some threshold ->
  (forall candle history,
     (List.length history < 15)%nat ->
     _check_entry_conditions candle history rules = false) /\
  (data self = Some (first :: rest) ->
   (List.length (first :: rest) <= 15)%nat ->
   fst (execute_strategy self rules)
   = ErrorDict (Some 0%nat) "No trades executed").
Proof.
  intros Hentry Hrsi.
  assert (Hshort : forall candle history,
             (List.length history < 15)%nat ->
             _check_entry_conditions candle history rules = false).
  { intros candle history Hlen. unfold _check_entry_conditions.
    rewrite Hentry. cbn [conditions_dict]. rewrite Hrsi.
    rewrite rsi_needs_history; [reflexivity|].
    now rewrite length_map. }
  split; [exact Hshort|].
  intros Hdata Hlen.
  rewrite (execute_strategy_loaded self rules first rest Hdata). cbn [fst].
  rewrite run_idle; [reflexivity|].
  intros j c Hj. apply Hshort.
  pose proof (prev_window_length (first :: rest) j). cbn in Hlen. lia.
Qed.

Lemma rsi_entry_needs_history_witness :
  fst (execute_strategy (engine_with [candle_before; candle_t0; candle_t1])
         (with_entry_conditions
            (Some (Declarative (mkConditions (Some 30) None None)))
            long_rules))
  = ErrorDict (Some 0%nat) "No trades executed".
Proof.
  apply (rsi_entry_needs_history
           (engine_with [candle_before; candle_t0; candle_t1])
           (with_entry_conditions
              (Some (Declarative (mkConditions (Some 30) None None)))
              long_rules)
           (mkConditions (Some 30) None None) 30
           candle_before [candle_t0; candle_t1] eq_refl eq_refl).
  - reflexivity.
  - cbn. lia.
Defined.

(** * Further properties: the equity curve *)

Lemma equity_curve_head_preserved (start : Q) :
  Preserved (fun e => exists tail, equity_curve e = start :: tail).
Proof.
  split; [|split].
  - intros e ts price H.
    destruct (close_position_fields e ts price) as (_ & _ & Heq).
    now rewrite Heq.
  - intros e candle [tail H]. cbn. rewrite H. now eexists.
  - intros e ts price percent direction H. exact H.
Qed.

(** X30: the equity curve of a run starts with the initial capital and
    then has one entry for each pass of the loop that closed no
    position: its length and the number of trades closed inside the loop
    add up to the number of candles of the frame; the forced close adds
    no entry. *)
Theorem equity_curve_shape (self : BacktestEngine) (rules : StrategyRules)
    (first : Candle) (rest : list Candle) :
  data self = Some (first :: rest) ->
  let final := snd (execute_strategy self rules) in
  (exists tail, equity_curve final = initial_capital self :: tail) /\
  equity_curve final = equity_curve (after_loop self rules first rest) /\
  (List.length (equity_curve final)
   + List.length (trades (after_loop self rules first rest))
   = List.length (first :: rest))%nat.
Proof.
  intro Hdata. cbn zeta.
  rewrite (execute_strategy_loaded self rules first rest Hdata). cbn [snd].
  destruct (close_at_end_spec (first :: rest) first
              (after_loop self rules first rest)) as (_ & _ & Hcurve & _).
  rewrite run_after_loop, Hcurve. repeat split.
  - unfold after_loop.
    apply (simulate_preserves _ _ _ _ _ (equity_curve_head_preserved _)).
    now exists [].
  - destruct (after_loop_Progress self rules first rest)
      as [_ (records & Hlog & _ & _ & Hequity & _)].
    destruct (simulate_Activity rules (parameters rules) (first :: rest) rest
                1%nat (at_start self rules))
      as (records' & Hlog' & _ & Hclosed).
    fold (after_loop self rules first rest) in Hlog', Hclosed.
    assert (Hsame : records' = records).
    { rewrite Hlog in Hlog'. now apply app_inv_head in Hlog'. }
    subst records'. cbn in Hequity, Hclosed. cbn [List.length]. lia.
Qed.

Lemma equity_curve_shape_witness :
  let self := engine_with [candle_before; candle_t0; candle_t1] in
  let final := snd (execute_strategy self long_rules) in
  (exists tail, equity_curve final = initial_capital self :: tail) /\
  equity_curve final
  = equity_curve (after_loop self long_rules candle_before [candle_t0; candle_t1]) /\
  (List.length (equity_curve final)
   + List.length
       (trades (after_loop self long_rules candle_before [candle_t0; candle_t1]))
   = 3)%nat.
Proof.
  exact (equity_curve_shape
           (engine_with [candle_before; candle_t0; candle_t1]) long_rules
           candle_before [candle_t0; candle_t1] eq_refl).
Defined.
